(** * The OpenAI provider adapter of the gateway

    A shallow embedding of [mlflow/gateway/providers/openai.py]: the
    constructor of [OpenAIProvider] and its three operations [chat],
    [completions] and [embeddings], together with the Python values they
    manipulate (JSON-like values, insertion-ordered dictionaries,
    exceptions) and the single suspension point of each operation, the
    awaited [send_request]. *)

From Stdlib Require Import List String ZArith Bool PrimFloat Lia.
Import ListNotations.
Local Open Scope string_scope.

Set Implicit Arguments.
#[local] Set Warnings "-register-all".

(** ** Python values *)

(** What [jsonable_encoder] produces and what a parsed JSON body is: [None],
    [bool], [int] (unbounded), [float] (IEEE binary64), [str], [list] and
    [dict] with string keys.  A dictionary keeps its items in insertion
    order. *)
Inductive json : Type :=
| JNull
| JBool (b : bool)
| JInt (z : Z)
| JFloat (f : float)
| JStr (s : string)
| JList (l : list json)
| JDict (d : list (string * json)).

(** ** Python dictionaries *)

Module Dict.
Section Ops.
Context {V : Type}.

Definition t : Type := list (string * V).

(** [d.get(k)] *)
Fixpoint get (k : string) (d : t) : option V :=
  match d with
  | [] => None
  | (k', v) :: d' => if String.eqb k k' then Some v else get k d'
  end.

(** [k in d] *)
Definition contains (k : string) (d : t) : bool :=
  match get k d with Some _ => true | None => false end.

(** [d[k] = v]: an existing key keeps its position, a new key goes last. *)
Fixpoint set (k : string) (v : V) (d : t) : t :=
  match d with
  | [] => [(k, v)]
  | (k', v') :: d' =>
      if String.eqb k k' then (k', v) :: d' else (k', v') :: set k v d'
  end.

(** [del d[k]] *)
Definition remove (k : string) (d : t) : t :=
  filter (fun kv => negb (String.eqb k (fst kv))) d.

(** [{**d1, **d2}]: the items of [d2] are assigned into [d1] in order. *)
Definition update (d1 d2 : t) : t :=
  fold_left (fun acc kv => set (fst kv) (snd kv) acc) d2 d1.

Definition keys (d : t) : list string := map fst d.

(** A dictionary holds each key once. *)
Definition wf (d : t) : Prop := NoDup (keys d).
End Ops.
Arguments t : clear implicits.
End Dict.

(** ** Exceptions *)

(** The exceptions this module raises itself: [HTTPException] (line 25),
    [TypeError] (line 15, and Python's own for a subscript or product on a
    value of the wrong type) and [KeyError] (a failed dictionary lookup).
    The text of a [TypeError] is not modelled. *)
Inductive exn : Type :=
| HTTPException (status_code : Z) (detail : string)
| KeyError (key : string)
| TypeError.

(** ** The request sender *)

(** The keyword arguments of one call to [send_request]. *)
Record request : Type := mkRequest {
  req_headers : Dict.t string;
  req_base_url : string;
  req_path : string;
  req_payload : Dict.t json
}.

(** A coroutine of this module: it returns, raises, or awaits the request
    sender and goes on with the parsed body. *)
Inductive prog (A : Type) : Type :=
| Ret (a : A)
| Raise (e : exn)
| Await (r : request) (k : json -> prog A).
Arguments Ret {A} a.
Arguments Raise {A} e.
Arguments Await {A} r k.

Fixpoint bind {A B : Type} (m : prog A) (f : A -> prog B) : prog B :=
  match m with
  | Ret a => f a
  | Raise e => Raise e
  | Await r k => Await r (fun j => bind (k j) f)
  end.

Declare Scope prog_scope.
Delimit Scope prog_scope with prog.
Notation "x <- m ;; f" := (bind m (fun x => f))
  (at level 100, m at next level, right associativity) : prog_scope.
Local Open Scope prog_scope.

(** [await send_request(headers=..., base_url=..., path=..., payload=...)] *)
Definition send_request (headers : Dict.t string) (base_url path : string)
    (payload : Dict.t json) : prog json :=
  Await (mkRequest headers base_url path payload) Ret.

(** The request a coroutine is suspended on, if any. *)
Definition awaited {A : Type} (m : prog A) : option request :=
  match m with
  | Await r _ => Some r
  | _ => None
  end.

(** The coroutine resumed with the body [j] the sender returned. *)
Definition resume {A : Type} (m : prog A) (j : json) : prog A :=
  match m with
  | Await _ k => k j
  | _ => m
  end.

(** Running a coroutine against a sender that either raises or returns a
    parsed body; the list records the calls made to the sender, oldest
    first.  An exception of the sender is not caught. *)
Fixpoint run {A : Type} (sender : request -> exn + json) (m : prog A)
    (calls : list request) : (exn + A) * list request :=
  match m with
  | Ret a => (inr a, calls)
  | Raise e => (inl e, calls)
  | Await r k =>
      match sender r with
      | inl e => (inl e, (calls ++ [r])%list)
      | inr j => run sender (k j) (calls ++ [r])%list
      end
  end.

(** ** Python operations on values *)

(** [x[k]] for a string key [k]. *)
Definition getitem (x : json) (k : string) : prog json :=
  match x with
  | JDict d =>
      match Dict.get k d with
      | Some v => Ret v
      | None => Raise (KeyError k)
      end
  | _ => Raise TypeError
  end.

(** [d[k]] on a dictionary. *)
Definition lookup (d : Dict.t json) (k : string) : prog json :=
  match Dict.get k d with
  | Some v => Ret v
  | None => Raise (KeyError k)
  end.

(** [d.pop(k)]: the value and the dictionary without the key. *)
Definition pop (d : Dict.t json) (k : string) : prog (json * Dict.t json) :=
  match Dict.get k d with
  | Some v => Ret (v, Dict.remove k d)
  | None => Raise (KeyError k)
  end.

Fixpoint chars (s : string) : list json :=
  match s with
  | EmptyString => []
  | String c s' => JStr (String c EmptyString) :: chars s'
  end.

(** [for c in x]: the items a comprehension iterates over. *)
Definition iterate (x : json) : prog (list json) :=
  match x with
  | JList l => Ret l
  | JDict d => Ret (map JStr (Dict.keys d))
  | JStr s => Ret (chars s)
  | _ => Raise TypeError
  end.

(** [2 * x] *)
Definition double (x : json) : prog json :=
  match x with
  | JInt z => Ret (JInt (2 * z))
  | JBool b => Ret (JInt (2 * (if b then 1 else 0)))
  | JFloat f => Ret (JFloat (2 * f)%float)
  | JStr s => Ret (JStr (s ++ s))
  | JList l => Ret (JList (l ++ l)%list)
  | JNull | JDict _ => Raise TypeError
  end.

(** [[f(c) for c in l]], the items evaluated in order. *)
Fixpoint comprehension {A : Type} (f : json -> prog A) (l : list json)
    : prog (list A) :=
  match l with
  | [] => Ret []
  | c :: l' => a <- f c ;; r <- comprehension f l' ;; Ret (a :: r)
  end.

(** [x is None] *)
Definition is_none (x : json) : bool :=
  match x with JNull => true | _ => false end.

(** The items [jsonable_encoder] leaves out of a dictionary under
    [exclude_none=True] and its default [sqlalchemy_safe=True]: those whose
    value is [None] and those whose key starts with [_sa]. *)
Definition excluded (k : string) (v : json) : bool :=
  String.prefix "_sa" k || is_none v.

(** [jsonable_encoder(obj, exclude_none=True)]: a dictionary is rebuilt item
    by item without the excluded items; the items of a list are encoded in
    place. *)
Fixpoint jsonable_encoder_value (x : json) : json :=
  match x with
  | JList l => JList (map jsonable_encoder_value l)
  | JDict d =>
      JDict (fold_left
               (fun acc kv =>
                  let '(k, v) := kv in
                  if excluded k v then acc
                  else Dict.set k (jsonable_encoder_value v) acc) d [])
  | _ => x
  end.

(** A request model as the dictionary of its fields, the declared ones and
    any extra one the caller sent along. *)
Definition RequestPayload : Type := Dict.t json.

Definition jsonable_encoder (payload : RequestPayload) : Dict.t json :=
  fold_left
    (fun acc kv =>
       let '(k, v) := kv in
       if excluded k v then acc else Dict.set k (jsonable_encoder_value v) acc)
    payload [].

(** Modelled from the spec: [rename_payload_keys] of [providers/utils.py],
    which is not part of the sources at hand.  Given a flat mapping and a
    table of old name to new name it returns a copy of the mapping with the
    keys renamed and the unmapped keys untouched: for each entry of the
    table whose old name is a key, the value is taken out from under the
    old name and assigned under the new one. *)
Definition rename_key (result : Dict.t json) (entry : string * string)
    : Dict.t json :=
  let '(old_key, new_key) := entry in
  match Dict.get old_key result with
  | Some v => Dict.set new_key v (Dict.remove old_key result)
  | None => result
  end.

Definition rename_payload_keys (payload : Dict.t json)
    (mapping : Dict.t string) : Dict.t json :=
  fold_left rename_key mapping payload.
Arguments rename_payload_keys : simpl never.

(** ** Configuration *)

(** Modelled from the spec: the classes of [gateway/config.py] that the
    provider reads, which are not part of the sources at hand.  A route
    configuration carries a route type and a model; the model carries its
    name and an optional provider-specific configuration, which is the
    OpenAI variant (credential, organization id, base URL) or another
    provider's. *)
Inductive RouteType : Type :=
| LLM_V1_COMPLETIONS
| LLM_V1_CHAT
| LLM_V1_EMBEDDINGS.

Module OpenAIConfig.
Record t : Type := make {
  openai_api_key : string;
  openai_organization : option string;
  openai_api_base : string
}.
End OpenAIConfig.

Inductive ProviderConfig : Type :=
| IsOpenAIConfig (c : OpenAIConfig.t)
| IsOtherConfig (provider : string).

Module Model.
Record t : Type := make {
  name : string;
  config : option ProviderConfig
}.
End Model.

Module RouteConfig.
Record t : Type := make {
  route_type : RouteType;
  model : Model.t
}.
End RouteConfig.

(** ** Response schemas *)

(** Modelled from the spec: the response models of [gateway/schemas], which
    are not part of the sources at hand.  A response is a sequence of
    candidates (or of embedding vectors) and a metadata block; a field
    holds the value the provider passes to the model's constructor. *)
Module Metadata.
Record t : Type := make {
  input_tokens : json;
  output_tokens : json;
  total_tokens : json;
  model : json;
  route_type : RouteType
}.
End Metadata.

Module Chat.
Record Message : Type := mkMessage { role : json; content : json }.
Record CandidateMetadata : Type := mkCandidateMetadata { finish_reason : json }.
Record Candidate : Type := mkCandidate {
  message : Message;
  candidate_metadata : CandidateMetadata
}.
Record ResponsePayload : Type := mkResponsePayload {
  candidates : list Candidate;
  metadata : Metadata.t
}.
End Chat.

Module Completions.
Record CandidateMetadata : Type := mkCandidateMetadata { finish_reason : json }.
Record Candidate : Type := mkCandidate {
  text : json;
  candidate_metadata : CandidateMetadata
}.
Record ResponsePayload : Type := mkResponsePayload {
  candidates : list Candidate;
  metadata : Metadata.t
}.
End Completions.

Module Embeddings.
Record ResponsePayload : Type := mkResponsePayload {
  embeddings : list json;
  metadata : Metadata.t
}.
End Embeddings.

(** ** The provider *)

Module OpenAIProvider.

(** The attributes of an instance. *)
Record t : Type := make {
  config : RouteConfig.t;
  openai_config : OpenAIConfig.t;
  headers : Dict.t string;
  base_url : string
}.

(** [if org:] on an optional string: [None] and the empty string are
    both false. *)
Definition truthy (org : option string) : option string :=
  match org with
  | Some EmptyString => None
  | Some s => Some s
  | None => None
  end.

(** [__init__] (lines 11-20). *)
Definition init (config : RouteConfig.t) : exn + t :=
  match Model.config (RouteConfig.model config) with
  | Some (IsOpenAIConfig openai_config) =>
      let headers :=
        [("Authorization",
          "Bearer " ++ OpenAIConfig.openai_api_key openai_config)] in
      let headers :=
        match truthy (OpenAIConfig.openai_organization openai_config) with
        | Some org => Dict.set "OpenAI-Organization" org headers
        | None => headers
        end in
      inr (make config openai_config headers
             (OpenAIConfig.openai_api_base openai_config))
  | _ => inl TypeError
  end.

Definition invalid_parameter_n : exn :=
  HTTPException 400 "Invalid parameter `n`. Use `candidate_count` instead.".

(** [{"model": self.config.model.name, **payload}] *)
Definition with_model (self : t) (payload : Dict.t json) : Dict.t json :=
  Dict.update
    [("model", JStr (Model.name (RouteConfig.model (config self))))]
    payload.

(** The metadata block built from the provider's usage block, as chat
    and completions write it (lines 80-86 and 140-146). *)
Definition usage_metadata (self : t) (resp : json) : prog Metadata.t :=
  u <- getitem resp "usage" ;;
  input_tokens <- getitem u "prompt_tokens" ;;
  u <- getitem resp "usage" ;;
  output_tokens <- getitem u "completion_tokens" ;;
  u <- getitem resp "usage" ;;
  total_tokens <- getitem u "total_tokens" ;;
  model <- getitem resp "model" ;;
  Ret (Metadata.make input_tokens output_tokens total_tokens model
         (RouteConfig.route_type (config self))).

(** One candidate of a chat response (lines 69-77). *)
Definition chat_candidate (c : json) : prog Chat.Candidate :=
  m <- getitem c "message" ;;
  role <- getitem m "role" ;;
  m <- getitem c "message" ;;
  content <- getitem m "content" ;;
  finish_reason <- getitem c "finish_reason" ;;
  Ret (Chat.mkCandidate (Chat.mkMessage role content)
         (Chat.mkCandidateMetadata finish_reason)).

(** The return expression of [chat] (lines 66-88), as a function of the
    body [resp] the sender returned. *)
Definition chat_response (self : t) (resp : json)
    : prog Chat.ResponsePayload :=
  choices <- getitem resp "choices" ;;
  choices <- iterate choices ;;
  candidates <- comprehension chat_candidate choices ;;
  metadata <- usage_metadata self resp ;;
  Ret (Chat.mkResponsePayload candidates metadata).

(** [chat] (lines 22-88). *)
Definition chat (self : t) (payload : RequestPayload)
    : prog Chat.ResponsePayload :=
  let payload := jsonable_encoder payload in
  if Dict.contains "n" payload then Raise invalid_parameter_n
  else
    let payload := rename_payload_keys payload [("candidate_count", "n")] in
    temperature <- lookup payload "temperature" ;;
    temperature <- double temperature ;;
    let payload := Dict.set "temperature" temperature payload in
    resp <- send_request (headers self) (base_url self) "chat/completions"
              (with_model self payload) ;;
    chat_response self resp.

(** One candidate of a completions response (lines 134-137). *)
Definition completions_candidate (c : json) : prog Completions.Candidate :=
  m <- getitem c "message" ;;
  text <- getitem m "content" ;;
  finish_reason <- getitem c "finish_reason" ;;
  Ret (Completions.mkCandidate text
         (Completions.mkCandidateMetadata finish_reason)).

(** The return expression of [completions] (lines 131-148). *)
Definition completions_response (self : t) (resp : json)
    : prog Completions.ResponsePayload :=
  choices <- getitem resp "choices" ;;
  choices <- iterate choices ;;
  candidates <- comprehension completions_candidate choices ;;
  metadata <- usage_metadata self resp ;;
  Ret (Completions.mkResponsePayload candidates metadata).

(** [[{"role": "user", "content": prompt}]] *)
Definition user_messages (prompt : json) : json :=
  JList [JDict [("role", JStr "user"); ("content", prompt)]].

(** [completions] (lines 90-148). *)
Definition completions (self : t) (payload : RequestPayload)
    : prog Completions.ResponsePayload :=
  let payload := jsonable_encoder payload in
  if Dict.contains "n" payload then Raise invalid_parameter_n
  else
    let payload := rename_payload_keys payload [("candidate_count", "n")] in
    temperature <- lookup payload "temperature" ;;
    temperature <- double temperature ;;
    let payload := Dict.set "temperature" temperature payload in
    popped <- pop payload "prompt" ;;
    let payload :=
      Dict.set "messages" (user_messages (fst popped)) (snd popped) in
    resp <- send_request (headers self) (base_url self) "chat/completions"
              (with_model self payload) ;;
    completions_response self resp.

(** The return expression of [embeddings] (lines 184-195). *)
Definition embeddings_response (self : t) (resp : json)
    : prog Embeddings.ResponsePayload :=
  data <- getitem resp "data" ;;
  data <- iterate data ;;
  embeddings <- comprehension (fun d => getitem d "embedding") data ;;
  u <- getitem resp "usage" ;;
  input_tokens <- getitem u "prompt_tokens" ;;
  u <- getitem resp "usage" ;;
  total_tokens <- getitem u "total_tokens" ;;
  model <- getitem resp "model" ;;
  Ret (Embeddings.mkResponsePayload embeddings
         (Metadata.make input_tokens (JInt 0) total_tokens model
            (RouteConfig.route_type (config self)))).

(** [embeddings] (lines 150-195). *)
Definition embeddings (self : t) (payload : RequestPayload)
    : prog Embeddings.ResponsePayload :=
  let payload :=
    rename_payload_keys (jsonable_encoder payload) [("text", "input")] in
  resp <- send_request (headers self) (base_url self) "embeddings"
            (with_model self payload) ;;
  embeddings_response self resp.

End OpenAIProvider.

(** ** Shapes of provider responses *)

(** A choice of a chat-shaped response,
    [{"message": {"role": .., "content": ..}, "finish_reason": .., ...}],
    next to the chat candidate that copies its three values. *)
Inductive chat_choice : json -> Chat.Candidate -> Prop :=
| chat_choice_intro (c m : Dict.t json) (role content finish_reason : json) :
    Dict.get "message" c = Some (JDict m) ->
    Dict.get "role" m = Some role ->
    Dict.get "content" m = Some content ->
    Dict.get "finish_reason" c = Some finish_reason ->
    chat_choice (JDict c)
      (Chat.mkCandidate (Chat.mkMessage role content)
         (Chat.mkCandidateMetadata finish_reason)).

(** The same choice next to the completions candidate whose text is the
    content of its message. *)
Inductive completions_choice : json -> Completions.Candidate -> Prop :=
| completions_choice_intro (c m : Dict.t json) (content finish_reason : json) :
    Dict.get "message" c = Some (JDict m) ->
    Dict.get "content" m = Some content ->
    Dict.get "finish_reason" c = Some finish_reason ->
    completions_choice (JDict c)
      (Completions.mkCandidate content
         (Completions.mkCandidateMetadata finish_reason)).

(** An item of the [data] list of an embeddings response next to its
    vector. *)
Inductive embedding_item : json -> json -> Prop :=
| embedding_item_intro (d : Dict.t json) (vec : json) :
    Dict.get "embedding" d = Some vec ->
    embedding_item (JDict d) vec.

(** ** Sample data *)

Module Sample.

Definition openai_config : OpenAIConfig.t :=
  OpenAIConfig.make "sk-test" (Some "org-1") "https://api.openai.com/v1".

Definition route (rt : RouteType) (cfg : option ProviderConfig)
    : RouteConfig.t :=
  RouteConfig.make rt (Model.make "gpt-4" cfg).

Definition provider : OpenAIProvider.t :=
  OpenAIProvider.make
    (route LLM_V1_CHAT (Some (IsOpenAIConfig openai_config)))
    openai_config
    [("Authorization", "Bearer sk-test"); ("OpenAI-Organization", "org-1")]
    "https://api.openai.com/v1".

Definition hello : json :=
  JList [JDict [("role", JStr "user"); ("content", JStr "Say hi")]].

(** A chat request with two candidates asked for and an unset [stop]. *)
Definition chat_request : RequestPayload :=
  [("messages", hello); ("temperature", JFloat 0.5);
   ("candidate_count", JInt 2); ("stop", JNull)].

(** The same request with the extra field [model]. *)
Definition chat_request_with_model : RequestPayload :=
  [("messages", hello); ("temperature", JFloat 0.5);
   ("model", JStr "gpt-4-32k")].

(** A request that names the provider's own [n] and sets no
    temperature. *)
Definition chat_request_with_n : RequestPayload :=
  [("messages", hello); ("n", JInt 2)].

Definition chat_request_without_temperature : RequestPayload :=
  [("messages", hello); ("temperature", JNull)].

(** A completions request with a temperature beyond the canonical
    range. *)
Definition completions_request : RequestPayload :=
  [("prompt", JStr "Say hi"); ("temperature", JFloat 1.5)].

(** An embeddings request that also carries sampling fields. *)
Definition embeddings_request : RequestPayload :=
  [("text", JStr "hello"); ("temperature", JFloat 0.5); ("n", JInt 3)].

(** The fixed chat response of the round-trip property. *)
Definition chat_body : Dict.t json :=
  [("id", JStr "chatcmpl-abc123");
   ("model", JStr "gpt-x");
   ("usage", JDict [("prompt_tokens", JInt 13);
                    ("completion_tokens", JInt 7);
                    ("total_tokens", JInt 20)]);
   ("choices",
    JList [JDict [("message", JDict [("role", JStr "assistant");
                                     ("content", JStr "hi")]);
                  ("finish_reason", JStr "stop");
                  ("index", JInt 0)]])].

Definition chat_canonical (rt : RouteType) : Chat.ResponsePayload :=
  Chat.mkResponsePayload
    [Chat.mkCandidate (Chat.mkMessage (JStr "assistant") (JStr "hi"))
       (Chat.mkCandidateMetadata (JStr "stop"))]
    (Metadata.make (JInt 13) (JInt 7) (JInt 20) (JStr "gpt-x") rt).

(** An embeddings response whose usage block reports output tokens. *)
Definition embeddings_usage : Dict.t json :=
  [("prompt_tokens", JInt 8); ("completion_tokens", JInt 99);
   ("total_tokens", JInt 8)].

Definition embeddings_body : Dict.t json :=
  [("object", JStr "list");
   ("data", JList [JDict [("object", JStr "embedding");
                          ("embedding", JList [JFloat 0.5; JFloat 0.25]);
                          ("index", JInt 0)]]);
   ("model", JStr "text-embedding-ada-002");
   ("usage", JDict embeddings_usage)].

(** A correct configuration whose organization id is the empty string. *)
Definition blank_organization : OpenAIConfig.t :=
  OpenAIConfig.make "sk-test" (Some "") "https://api.openai.com/v1".

(** An embeddings request that carries [input] next to [text]. *)
Definition embeddings_request_with_input : RequestPayload :=
  [("text", JStr "hello"); ("input", JStr "other")].

End Sample.

(** ** Further sample data *)

Module Cases.

(** A chat request whose [n] is set to [None]. *)
Definition chat_request_with_null_n : RequestPayload :=
  [("messages", Sample.hello); ("temperature", JFloat 0.5); ("n", JNull)].

(** A completions request that brings its own [messages] and an extra
    sampling field. *)
Definition completions_request_with_messages : RequestPayload :=
  [("prompt", JStr "Say hi"); ("temperature", JFloat 0.5);
   ("candidate_count", JInt 2); ("messages", JList []);
   ("max_tokens", JInt 16)].

Definition completions_request_without_prompt : RequestPayload :=
  [("temperature", JFloat 0.5); ("max_tokens", JInt 16)].

(** A sender that answers every request with the same body. *)
Definition answers (body : json) : request -> exn + json :=
  fun _ => inr body.

(** A sender that fails every request as the upstream would. *)
Definition refuses : request -> exn + json :=
  fun _ => inl (HTTPException 429 "Too Many Requests").

(** A choice whose message has no role. *)
Definition choice_without_role : Dict.t json :=
  [("message", JDict [("content", JStr "hi")]); ("finish_reason", JStr "stop")].

Definition choice_message_without_role : Dict.t json :=
  [("content", JStr "hi")].

(** A well-shaped choice. *)
Definition choice : json :=
  JDict [("message", JDict [("role", JStr "assistant");
                            ("content", JStr "hello")]);
         ("finish_reason", JStr "length")].

Definition candidate : Chat.Candidate :=
  Chat.mkCandidate (Chat.mkMessage (JStr "assistant") (JStr "hello"))
    (Chat.mkCandidateMetadata (JStr "length")).

(** A usage block as the embeddings endpoint returns it, without
    [completion_tokens]. *)
Definition usage_without_completion : Dict.t json :=
  [("prompt_tokens", JInt 8); ("total_tokens", JInt 8)].

End Cases.

(** ** Observations on runs *)

(** A coroutine that, against every sender and after any earlier calls,
    calls the sender with the request it awaits and with nothing else, and
    whose outcome is the sender's exception when the sender raises; a
    coroutine that awaits nothing calls nothing. *)
Definition calls_only_what_it_awaits {A : Type} (m : prog A) : Prop :=
  forall sender calls,
    match awaited m with
    | Some r =>
        snd (run sender m calls) = (calls ++ [r])%list /\
        (forall e, sender r = inl e -> fst (run sender m calls) = inl e)
    | None => snd (run sender m calls) = calls
    end.

(** The first key that the candidate expression of [chat] (lines 69-77)
    fails to find in a choice: it reads [message] and [role], then
    [message] and [content], then [finish_reason]. *)
Inductive missing_in_choice : Dict.t json -> string -> Prop :=
| missing_message (c : Dict.t json) :
    Dict.get "message" c = None ->
    missing_in_choice c "message"
| missing_role (c m : Dict.t json) :
    Dict.get "message" c = Some (JDict m) ->
    Dict.get "role" m = None ->
    missing_in_choice c "role"
| missing_content (c m : Dict.t json) (role : json) :
    Dict.get "message" c = Some (JDict m) ->
    Dict.get "role" m = Some role ->
    Dict.get "content" m = None ->
    missing_in_choice c "content"
| missing_finish_reason (c m : Dict.t json) (role content : json) :
    Dict.get "message" c = Some (JDict m) ->
    Dict.get "role" m = Some role ->
    Dict.get "content" m = Some content ->
    Dict.get "finish_reason" c = None ->
    missing_in_choice c "finish_reason".

(** A chat message of the canonical request, [{"role": .., "content": ..}]
    with two strings. *)
Definition chat_message (m : string * string) : json :=
  JDict [("role", JStr (fst m)); ("content", JStr (snd m))].

(** * Properties *)

(** ** Dictionaries *)

Module DictFacts.
Section Facts.
Context {V : Type}.
Implicit Types (d : Dict.t V) (k : string) (v : V).

Lemma get_set_same k v d : Dict.get k (Dict.set k v d) = Some v.
Proof.
  induction d as [|[k' v'] d IH]; simpl.
  - now rewrite String.eqb_refl.
  - destruct (String.eqb k k') eqn:E; simpl; rewrite E; auto.
Qed.

Lemma get_set_other k k' v d :
  k <> k' -> Dict.get k (Dict.set k' v d) = Dict.get k d.
Proof.
  intros Hne. induction d as [|[k0 v0] d IH]; simpl.
  - apply String.eqb_neq in Hne. now rewrite Hne.
  - destruct (String.eqb k' k0) eqn:E; simpl.
    + apply String.eqb_eq in E. subst k0.
      apply String.eqb_neq in Hne. now rewrite Hne.
    + now rewrite IH.
Qed.

Lemma get_None k d : Dict.get k d = None <-> ~ In k (Dict.keys d).
Proof.
  induction d as [|[k' v'] d IH]; simpl.
  - tauto.
  - destruct (String.eqb k k') eqn:E.
    + apply String.eqb_eq in E. subst. split; [discriminate | tauto].
    + apply String.eqb_neq in E. rewrite IH. split.
      * intros H [H'|H']; [congruence | tauto].
      * tauto.
Qed.

Lemma keys_set k v d k' :
  In k' (Dict.keys (Dict.set k v d)) <-> k' = k \/ In k' (Dict.keys d).
Proof.
  induction d as [|[k0 v0] d IH]; simpl.
  - intuition.
  - destruct (String.eqb k k0) eqn:E; simpl.
    + apply String.eqb_eq in E. subst. intuition.
    + rewrite IH. intuition.
Qed.

Lemma wf_nil : Dict.wf (@nil (string * V)).
Proof. constructor. Qed.

Lemma wf_set k v d : Dict.wf d -> Dict.wf (Dict.set k v d).
Proof.
  unfold Dict.wf. induction d as [|[k0 v0] d IH]; simpl; intros Hwf.
  - constructor; [simpl; tauto | constructor].
  - inversion Hwf as [|? ? Hnotin Hwf']; subst.
    destruct (String.eqb k k0) eqn:E; simpl.
    + now constructor.
    + constructor; [|now apply IH].
      apply String.eqb_neq in E.
      change (~ In k0 (Dict.keys (Dict.set k v d))).
      rewrite keys_set. intros [H|H]; [congruence | contradiction].
Qed.

Lemma get_remove_same k d : Dict.get k (Dict.remove k d) = None.
Proof.
  induction d as [|[k' v'] d IH]; simpl; auto.
  destruct (String.eqb k k') eqn:E; simpl; auto. now rewrite E.
Qed.

Lemma get_remove_other k k' d :
  k <> k' -> Dict.get k (Dict.remove k' d) = Dict.get k d.
Proof.
  intros Hne. induction d as [|[k0 v0] d IH]; simpl; auto.
  destruct (String.eqb k' k0) eqn:E; simpl.
  - apply String.eqb_eq in E. subst k0.
    apply String.eqb_neq in Hne. now rewrite Hne.
  - now rewrite IH.
Qed.

Lemma wf_remove k d : Dict.wf d -> Dict.wf (Dict.remove k d).
Proof.
  unfold Dict.wf, Dict.remove, Dict.keys.
  induction d as [|[k0 v0] d IH]; simpl; intros Hwf; auto.
  inversion Hwf as [|? ? Hnotin Hwf']; subst.
  destruct (String.eqb k k0); simpl; auto.
  constructor; auto.
  intros Hin. apply Hnotin.
  apply in_map_iff in Hin. destruct Hin as [x [Hx Hin]].
  apply filter_In in Hin. apply in_map_iff. exists x. tauto.
Qed.

(** A key of the second dictionary wins over the same key of the
    first. *)
Lemma get_update k d2 : forall d1,
  Dict.wf d2 ->
  Dict.get k (Dict.update d1 d2) =
  match Dict.get k d2 with
  | Some v => Some v
  | None => Dict.get k d1
  end.
Proof.
  unfold Dict.update.
  induction d2 as [|[k' v'] d2 IH]; simpl; intros d1 Hwf; auto.
  inversion Hwf as [|? ? Hnotin Hwf']; subst.
  rewrite IH by assumption.
  destruct (String.eqb k k') eqn:E.
  - apply String.eqb_eq in E. subst k'.
    apply get_None in Hnotin. rewrite Hnotin. apply get_set_same.
  - apply String.eqb_neq in E. now rewrite get_set_other.
Qed.

Lemma wf_update d2 : forall d1, Dict.wf d1 -> Dict.wf (Dict.update d1 d2).
Proof.
  unfold Dict.update.
  induction d2 as [|[k' v'] d2 IH]; simpl; intros d1 Hwf; auto.
  apply IH. now apply wf_set.
Qed.

Lemma contains_false k d : Dict.contains k d = false <-> Dict.get k d = None.
Proof.
  unfold Dict.contains. destruct (Dict.get k d); split; congruence.
Qed.

Lemma contains_true k d :
  Dict.contains k d = true <-> exists v, Dict.get k d = Some v.
Proof.
  unfold Dict.contains. destruct (Dict.get k d) as [v|]; split.
  - eauto.
  - reflexivity.
  - discriminate.
  - intros [v H]. discriminate.
Qed.
End Facts.
End DictFacts.

(** ** Serialization and key renaming *)

Section Folds.
Import DictFacts.

Lemma fold_left_wf {X : Type} (step : Dict.t json -> X -> Dict.t json) :
  (forall acc x, Dict.wf acc -> Dict.wf (step acc x)) ->
  forall l acc, Dict.wf acc -> Dict.wf (fold_left step l acc).
Proof.
  intros Hstep l. induction l as [|x l IH]; simpl; auto.
Qed.

Lemma jsonable_encoder_wf payload : Dict.wf (jsonable_encoder payload).
Proof.
  unfold jsonable_encoder. apply fold_left_wf; [|apply wf_nil].
  intros acc [k v] Hwf. destruct (excluded k v); [assumption|].
  now apply wf_set.
Qed.

Lemma rename_key_wf result entry :
  Dict.wf result -> Dict.wf (rename_key result entry).
Proof.
  destruct entry as [old_key new_key]. unfold rename_key. intros Hwf.
  destruct (Dict.get old_key result); [|assumption].
  now apply wf_set, wf_remove.
Qed.

Lemma rename_payload_keys_wf payload mapping :
  Dict.wf payload -> Dict.wf (rename_payload_keys payload mapping).
Proof.
  unfold rename_payload_keys. revert payload.
  induction mapping as [|entry mapping IH]; simpl; intros payload Hwf; auto.
  apply IH. now apply rename_key_wf.
Qed.

(** The renamed request of an operation is a dictionary. *)
Lemma renamed_request_wf payload mapping :
  Dict.wf (rename_payload_keys (jsonable_encoder payload) mapping).
Proof. apply rename_payload_keys_wf, jsonable_encoder_wf. Qed.

(** Renaming with a one-entry table [{a: b}]. *)
Lemma rename_payload_keys_one payload a b :
  rename_payload_keys payload [(a, b)] =
  match Dict.get a payload with
  | Some v => Dict.set b v (Dict.remove a payload)
  | None => payload
  end.
Proof. reflexivity. Qed.

Lemma rename_source a b payload :
  a <> b -> Dict.get a (rename_payload_keys payload [(a, b)]) = None.
Proof.
  intros Hab. rewrite rename_payload_keys_one.
  destruct (Dict.get a payload) eqn:E; [|exact E].
  rewrite get_set_other by assumption. apply get_remove_same.
Qed.

Lemma rename_other a b k payload :
  k <> a -> k <> b -> Dict.wf payload ->
  Dict.get k (rename_payload_keys payload [(a, b)]) = Dict.get k payload.
Proof.
  intros Ha Hb _. rewrite rename_payload_keys_one.
  destruct (Dict.get a payload); [|reflexivity].
  rewrite get_set_other by assumption. now apply get_remove_other.
Qed.

(** The value of the old name is under the new name, whatever was there. *)
Lemma rename_moved a b payload v :
  Dict.get a payload = Some v ->
  Dict.get b (rename_payload_keys payload [(a, b)]) = Some v.
Proof.
  intros Ha. rewrite rename_payload_keys_one, Ha. apply get_set_same.
Qed.

Lemma rename_target a b payload :
  a <> b -> Dict.wf payload -> Dict.get b payload = None ->
  Dict.get b (rename_payload_keys payload [(a, b)]) = Dict.get a payload.
Proof.
  intros Hab _ Hb.
  destruct (Dict.get a payload) as [v|] eqn:Ha.
  - now apply rename_moved.
  - rewrite rename_payload_keys_one, Ha. exact Hb.
Qed.
End Folds.

(** ** The coroutines *)

Section Coroutines.
Import DictFacts.
Import OpenAIProvider.

Lemma bind_send_request {A : Type} h b p d (k : json -> prog A) :
  (resp <- send_request h b p d ;; k resp) = Await (mkRequest h b p d) k.
Proof. reflexivity. Qed.

(** A raising coroutine never reaches the sender. *)
Lemma run_Raise {A : Type} sender e calls :
  run sender (@Raise A e) calls = (inl e, calls).
Proof. reflexivity. Qed.

(** A suspended coroutine calls the sender once with the awaited request
    and goes on with the body, or passes the sender's exception on. *)
Lemma run_Await {A : Type} sender r (k : json -> prog A) calls :
  run sender (Await r k) calls =
  match sender r with
  | inl e => (inl e, (calls ++ [r])%list)
  | inr j => run sender (k j) (calls ++ [r])%list
  end.
Proof. reflexivity. Qed.

Lemma comprehension_Forall2 {A : Type} (f : json -> prog A) l rs :
  Forall2 (fun c r => f c = Ret r) l rs -> comprehension f l = Ret rs.
Proof.
  induction 1 as [|c r l rs Hc _ IH]; simpl; auto.
  now rewrite Hc, IH.
Qed.

Lemma with_model_get self d k :
  Dict.wf d ->
  Dict.get k (with_model self d) =
  match Dict.get k d with
  | Some v => Some v
  | None =>
      if String.eqb k "model"
      then Some (JStr (Model.name (RouteConfig.model (config self))))
      else None
  end.
Proof.
  intros Hwf. unfold with_model. now rewrite get_update.
Qed.

(** The payload of [chat] and [completions] after the renaming and the
    doubling. *)
Lemma sampling_payload_wf payload t2 :
  Dict.wf (Dict.set "temperature" t2
             (rename_payload_keys (jsonable_encoder payload)
                [("candidate_count", "n")])).
Proof. apply wf_set, renamed_request_wf. Qed.

Lemma sampling_temperature payload :
  Dict.get "temperature"
    (rename_payload_keys (jsonable_encoder payload)
       [("candidate_count", "n")]) =
  Dict.get "temperature" (jsonable_encoder payload).
Proof.
  apply rename_other; [discriminate | discriminate |].
  apply jsonable_encoder_wf.
Qed.

Lemma chat_rejects_n self payload :
  Dict.contains "n" (jsonable_encoder payload) = true ->
  chat self payload = Raise invalid_parameter_n.
Proof. intros Hn. unfold chat. now rewrite Hn. Qed.

Lemma completions_rejects_n self payload :
  Dict.contains "n" (jsonable_encoder payload) = true ->
  completions self payload = Raise invalid_parameter_n.
Proof. intros Hn. unfold completions. now rewrite Hn. Qed.

(** A chat request without [n] and with a temperature that can be
    doubled is suspended on the sender. *)
Lemma chat_sends self payload t t2 :
  Dict.contains "n" (jsonable_encoder payload) = false ->
  Dict.get "temperature" (jsonable_encoder payload) = Some t ->
  double t = Ret t2 ->
  chat self payload =
  Await (mkRequest (headers self) (base_url self) "chat/completions"
           (with_model self
              (Dict.set "temperature" t2
                 (rename_payload_keys (jsonable_encoder payload)
                    [("candidate_count", "n")]))))
        (chat_response self).
Proof.
  intros Hn Ht Hd. unfold chat, lookup.
  rewrite Hn, sampling_temperature, Ht. simpl. rewrite Hd. reflexivity.
Qed.

Lemma chat_missing_temperature self payload :
  Dict.contains "n" (jsonable_encoder payload) = false ->
  Dict.get "temperature" (jsonable_encoder payload) = None ->
  chat self payload = Raise (KeyError "temperature").
Proof.
  intros Hn Ht. unfold chat, lookup.
  now rewrite Hn, sampling_temperature, Ht.
Qed.

Lemma completions_missing_temperature self payload :
  Dict.contains "n" (jsonable_encoder payload) = false ->
  Dict.get "temperature" (jsonable_encoder payload) = None ->
  completions self payload = Raise (KeyError "temperature").
Proof.
  intros Hn Ht. unfold completions, lookup.
  now rewrite Hn, sampling_temperature, Ht.
Qed.

(** Whatever [chat] is suspended on: the request is the translated one and
    the coroutine goes on with the return expression. *)
Lemma chat_awaited_inv self payload r :
  awaited (chat self payload) = Some r ->
  exists t t2,
    Dict.contains "n" (jsonable_encoder payload) = false /\
    Dict.get "temperature" (jsonable_encoder payload) = Some t /\
    double t = Ret t2 /\
    r = mkRequest (headers self) (base_url self) "chat/completions"
          (with_model self
             (Dict.set "temperature" t2
                (rename_payload_keys (jsonable_encoder payload)
                   [("candidate_count", "n")]))).
Proof.
  unfold chat, lookup. rewrite sampling_temperature.
  destruct (Dict.contains "n" (jsonable_encoder payload)); [discriminate|].
  destruct (Dict.get "temperature" _) as [t|]; [|discriminate].
  simpl. destruct (double t) as [t2|e|r' k] eqn:Hd; simpl;
    try discriminate.
  - intros [= <-]. exists t, t2. auto.
  - destruct t; discriminate Hd.
Qed.

Lemma chat_awaited self payload r :
  awaited (chat self payload) = Some r ->
  chat self payload = Await r (chat_response self).
Proof.
  intros H. destruct (chat_awaited_inv _ _ H) as (t & t2 & Hn & Ht & Hd & ->).
  now apply chat_sends with (t := t).
Qed.

Lemma completions_sends self payload t t2 prompt :
  Dict.contains "n" (jsonable_encoder payload) = false ->
  Dict.get "temperature" (jsonable_encoder payload) = Some t ->
  double t = Ret t2 ->
  Dict.get "prompt" (jsonable_encoder payload) = Some prompt ->
  completions self payload =
  Await (mkRequest (headers self) (base_url self) "chat/completions"
           (with_model self
              (Dict.set "messages" (user_messages prompt)
                 (Dict.remove "prompt"
                    (Dict.set "temperature" t2
                       (rename_payload_keys (jsonable_encoder payload)
                          [("candidate_count", "n")]))))))
        (completions_response self).
Proof.
  intros Hn Ht Hd Hp. unfold completions, lookup, pop.
  rewrite Hn, sampling_temperature, Ht. simpl. rewrite Hd. simpl.
  rewrite get_set_other by discriminate.
  rewrite rename_other;
    [| discriminate | discriminate | apply jsonable_encoder_wf].
  rewrite Hp. reflexivity.
Qed.

Lemma completions_awaited_inv self payload r :
  awaited (completions self payload) = Some r ->
  exists t t2 prompt,
    Dict.contains "n" (jsonable_encoder payload) = false /\
    Dict.get "temperature" (jsonable_encoder payload) = Some t /\
    double t = Ret t2 /\
    Dict.get "prompt" (jsonable_encoder payload) = Some prompt /\
    r = mkRequest (headers self) (base_url self) "chat/completions"
          (with_model self
             (Dict.set "messages" (user_messages prompt)
                (Dict.remove "prompt"
                   (Dict.set "temperature" t2
                      (rename_payload_keys (jsonable_encoder payload)
                         [("candidate_count", "n")]))))).
Proof.
  unfold completions, lookup, pop. rewrite sampling_temperature.
  destruct (Dict.contains "n" (jsonable_encoder payload)); [discriminate|].
  destruct (Dict.get "temperature" _) as [t|]; [|discriminate].
  simpl. destruct (double t) as [t2|e|r' k] eqn:Hd; simpl;
    try discriminate.
  - rewrite get_set_other by discriminate.
    rewrite rename_other;
      [| discriminate | discriminate | apply jsonable_encoder_wf].
    destruct (Dict.get "prompt" _) as [prompt|]; [|discriminate].
    simpl. intros [= <-]. exists t, t2, prompt. auto.
  - destruct t; discriminate Hd.
Qed.

Lemma completions_awaited self payload r :
  awaited (completions self payload) = Some r ->
  completions self payload = Await r (completions_response self).
Proof.
  intros H.
  destruct (completions_awaited_inv _ _ H)
    as (t & t2 & prompt & Hn & Ht & Hd & Hp & ->).
  now apply completions_sends with (t := t).
Qed.

Lemma embeddings_sends self payload :
  embeddings self payload =
  Await (mkRequest (headers self) (base_url self) "embeddings"
           (with_model self
              (rename_payload_keys (jsonable_encoder payload)
                 [("text", "input")])))
        (embeddings_response self).
Proof. reflexivity. Qed.

(** The metadata block of a well-shaped body. *)
Lemma usage_metadata_ok self d u pt ct tt m :
  Dict.get "usage" d = Some (JDict u) ->
  Dict.get "prompt_tokens" u = Some pt ->
  Dict.get "completion_tokens" u = Some ct ->
  Dict.get "total_tokens" u = Some tt ->
  Dict.get "model" d = Some m ->
  usage_metadata self (JDict d) =
  Ret (Metadata.make pt ct tt m (RouteConfig.route_type (config self))).
Proof.
  intros Hu Hpt Hct Htt Hm. unfold usage_metadata, getitem.
  rewrite Hu. simpl. rewrite Hpt, Hct, Htt. simpl. now rewrite Hm.
Qed.

Lemma chat_candidate_ok c cand :
  chat_choice c cand -> chat_candidate c = Ret cand.
Proof.
  intros [cd md role content fr Hm Hr Hc Hf].
  unfold chat_candidate, getitem.
  rewrite Hm. simpl. rewrite Hr, Hc. simpl. now rewrite Hf.
Qed.

Lemma completions_candidate_ok c cand :
  completions_choice c cand -> completions_candidate c = Ret cand.
Proof.
  intros [cd md content fr Hm Hc Hf].
  unfold completions_candidate, getitem.
  rewrite Hm. simpl. rewrite Hc. simpl. now rewrite Hf.
Qed.

Lemma embedding_item_ok x vec :
  embedding_item x vec -> getitem x "embedding" = Ret vec.
Proof. intros [d v H]. simpl. now rewrite H. Qed.
End Coroutines.

(** * The claims *)

Unset Implicit Arguments.

Section WireModel.
Import DictFacts.
Import OpenAIProvider.

(** C1, as stated, fails: the wire payload is the configured name followed
    by the items of the request, so a request that carries the extra field
    [model] puts its own value on the wire.  Here the route is configured
    for "gpt-4" and the caller obtains "gpt-4-32k". *)
Lemma wire_model_overridden_by_request :
  Model.name (RouteConfig.model (config Sample.provider)) = "gpt-4" /\
  exists r,
    awaited (chat Sample.provider Sample.chat_request_with_model) = Some r /\
    Dict.get "model" (req_payload r) = Some (JStr "gpt-4-32k") /\
    Dict.get "model" (req_payload r) <>
    Some (JStr (Model.name (RouteConfig.model (config Sample.provider)))).
Proof.
  split; [reflexivity|].
  eexists. split; [reflexivity|]. split; [reflexivity|].
  vm_compute. discriminate.
Qed.

(** C1 (amended): for every chat, completions or embeddings call whose
    serialized request has no key [model], the payload handed to the
    request sender has its [model] field equal to the model name of the
    route configuration. *)
Theorem wire_model_is_configured self payload :
  Dict.get "model" (jsonable_encoder payload) = None ->
  (forall r, awaited (chat self payload) = Some r ->
     Dict.get "model" (req_payload r) =
     Some (JStr (Model.name (RouteConfig.model (config self))))) /\
  (forall r, awaited (completions self payload) = Some r ->
     Dict.get "model" (req_payload r) =
     Some (JStr (Model.name (RouteConfig.model (config self))))) /\
  (forall r, awaited (embeddings self payload) = Some r ->
     Dict.get "model" (req_payload r) =
     Some (JStr (Model.name (RouteConfig.model (config self))))).
Proof.
  intros Hm.
  assert (Hwf := jsonable_encoder_wf payload).
  repeat split; intros r Hr.
  - destruct (chat_awaited_inv _ _ Hr) as (t & t2 & _ & _ & _ & ->).
    simpl. rewrite with_model_get by apply sampling_payload_wf.
    rewrite get_set_other by discriminate.
    rewrite rename_other by (assumption || discriminate).
    now rewrite Hm.
  - destruct (completions_awaited_inv _ _ Hr)
      as (t & t2 & prompt & _ & _ & _ & _ & ->).
    simpl.
    rewrite with_model_get
      by apply wf_set, wf_remove, sampling_payload_wf.
    rewrite get_set_other by discriminate.
    rewrite get_remove_other by discriminate.
    rewrite get_set_other by discriminate.
    rewrite rename_other by (assumption || discriminate).
    now rewrite Hm.
  - rewrite embeddings_sends in Hr. injection Hr as <-.
    simpl. rewrite with_model_get by apply renamed_request_wf.
    rewrite rename_other by (assumption || discriminate).
    now rewrite Hm.
Qed.

Lemma wire_model_is_configured_witness :
  Dict.get "model" (jsonable_encoder Sample.chat_request) = None /\
  forall r, awaited (chat Sample.provider Sample.chat_request) = Some r ->
    Dict.get "model" (req_payload r) = Some (JStr "gpt-4").
Proof.
  split; [reflexivity|].
  apply (wire_model_is_configured Sample.provider Sample.chat_request).
  reflexivity.
Defined.
End WireModel.

Section EarlyFailures.
Import DictFacts.
Import OpenAIProvider.

(** C2: a chat or completions request whose serialized mapping contains the
    key [n] fails with the [HTTPException] of status 400 that names the
    invalid parameter, and the request sender is not called: the coroutine
    is a bare raise, and run against any sender it leaves the record of
    calls as it was. *)
Theorem n_is_rejected_before_sending self payload :
  Dict.contains "n" (jsonable_encoder payload) = true ->
  chat self payload =
    Raise (HTTPException 400
             "Invalid parameter `n`. Use `candidate_count` instead.") /\
  completions self payload =
    Raise (HTTPException 400
             "Invalid parameter `n`. Use `candidate_count` instead.") /\
  forall sender calls,
    run sender (chat self payload) calls =
      (inl (HTTPException 400
              "Invalid parameter `n`. Use `candidate_count` instead."),
       calls) /\
    run sender (completions self payload) calls =
      (inl (HTTPException 400
              "Invalid parameter `n`. Use `candidate_count` instead."),
       calls).
Proof.
  intros Hn.
  rewrite (chat_rejects_n self payload Hn).
  rewrite (completions_rejects_n self payload Hn).
  repeat split.
Qed.

Lemma n_is_rejected_before_sending_witness :
  Dict.contains "n" (jsonable_encoder Sample.chat_request_with_n) = true /\
  chat Sample.provider Sample.chat_request_with_n =
    Raise (HTTPException 400
             "Invalid parameter `n`. Use `candidate_count` instead.").
Proof.
  split; [reflexivity|].
  apply (n_is_rejected_before_sending Sample.provider
           Sample.chat_request_with_n).
  reflexivity.
Defined.

(** C10, as stated, fails: the check for [n] comes before the read of
    [temperature], so a request with [n] and without temperature fails
    with the [HTTPException] and not with a key-lookup error. *)
Lemma missing_temperature_with_n_is_not_a_key_error :
  Dict.get "temperature" (jsonable_encoder Sample.chat_request_with_n) = None /\
  chat Sample.provider Sample.chat_request_with_n =
    Raise (HTTPException 400
             "Invalid parameter `n`. Use `candidate_count` instead.") /\
  completions Sample.provider Sample.chat_request_with_n =
    Raise (HTTPException 400
             "Invalid parameter `n`. Use `candidate_count` instead.") /\
  forall k, chat Sample.provider Sample.chat_request_with_n <>
            Raise (KeyError k).
Proof.
  repeat split; try reflexivity.
  intros k H. vm_compute in H. discriminate.
Qed.

(** C10 (amended): a chat or completions request whose serialized mapping
    contains neither the key [temperature] nor the key [n] fails with
    [KeyError] on [temperature], and the request sender is not called. *)
Theorem missing_temperature_is_a_key_error self payload :
  Dict.get "temperature" (jsonable_encoder payload) = None ->
  Dict.contains "n" (jsonable_encoder payload) = false ->
  chat self payload = Raise (KeyError "temperature") /\
  completions self payload = Raise (KeyError "temperature") /\
  forall sender calls,
    run sender (chat self payload) calls =
      (inl (KeyError "temperature"), calls) /\
    run sender (completions self payload) calls =
      (inl (KeyError "temperature"), calls).
Proof.
  intros Ht Hn.
  rewrite (chat_missing_temperature self payload Hn Ht).
  rewrite (completions_missing_temperature self payload Hn Ht).
  repeat split.
Qed.

Lemma missing_temperature_is_a_key_error_witness :
  Dict.get "temperature"
    (jsonable_encoder Sample.chat_request_without_temperature) = None /\
  Dict.contains "n"
    (jsonable_encoder Sample.chat_request_without_temperature) = false /\
  chat Sample.provider Sample.chat_request_without_temperature =
    Raise (KeyError "temperature").
Proof.
  split; [reflexivity|]. split; [reflexivity|].
  apply (missing_temperature_is_a_key_error Sample.provider
           Sample.chat_request_without_temperature); reflexivity.
Defined.
End EarlyFailures.

Section Sampling.
Import DictFacts.
Import OpenAIProvider.

(** C5: a chat or completions request (a completions request has its
    prompt) that carries the temperature [t] puts the product [2 * t] on
    the wire, whatever [t] is: there is no range check and no clamp, so a
    temperature beyond [0, 1] is doubled like any other. *)
Theorem temperature_is_doubled self payload (t : float) :
  Dict.contains "n" (jsonable_encoder payload) = false ->
  Dict.get "temperature" (jsonable_encoder payload) = Some (JFloat t) ->
  (exists r,
     awaited (chat self payload) = Some r /\
     Dict.get "temperature" (req_payload r) = Some (JFloat (2 * t)%float)) /\
  (forall prompt,
     Dict.get "prompt" (jsonable_encoder payload) = Some prompt ->
     exists r,
       awaited (completions self payload) = Some r /\
       Dict.get "temperature" (req_payload r) = Some (JFloat (2 * t)%float)).
Proof.
  intros Hn Ht. split.
  - rewrite (chat_sends self payload Hn Ht eq_refl).
    eexists. split; [reflexivity|]. simpl.
    rewrite with_model_get by apply sampling_payload_wf.
    now rewrite get_set_same.
  - intros prompt Hp.
    rewrite (completions_sends self payload Hn Ht eq_refl Hp).
    eexists. split; [reflexivity|]. simpl.
    rewrite with_model_get
      by apply wf_set, wf_remove, sampling_payload_wf.
    rewrite get_set_other by discriminate.
    rewrite get_remove_other by discriminate.
    now rewrite get_set_same.
Qed.

Lemma temperature_is_doubled_witness :
  (exists r,
     awaited (chat Sample.provider Sample.chat_request) = Some r /\
     Dict.get "temperature" (req_payload r) = Some (JFloat 1)) /\
  (exists r,
     awaited (completions Sample.provider Sample.completions_request)
       = Some r /\
     Dict.get "temperature" (req_payload r) = Some (JFloat 3)).
Proof.
  split.
  - apply (temperature_is_doubled Sample.provider Sample.chat_request
             0.5%float); reflexivity.
  - apply (temperature_is_doubled Sample.provider Sample.completions_request
             1.5%float) with (prompt := JStr "Say hi"); reflexivity.
Defined.

(** C6, as stated, fails: [temperature] is not in the renaming table, yet
    the wire payload carries it with another value, the double. *)
Lemma unrenamed_temperature_is_not_carried_unchanged :
  Dict.get "temperature" [("candidate_count", "n")] = None /\
  Dict.get "temperature" (jsonable_encoder Sample.chat_request)
    = Some (JFloat 0.5) /\
  exists r,
    awaited (chat Sample.provider Sample.chat_request) = Some r /\
    Dict.get "temperature" (req_payload r) = Some (JFloat 1) /\
    Dict.get "temperature" (req_payload r) <>
    Dict.get "temperature" (jsonable_encoder Sample.chat_request).
Proof.
  split; [reflexivity|]. split; [reflexivity|].
  eexists. split; [reflexivity|]. split; [reflexivity|].
  vm_compute. discriminate.
Qed.

(** C6 (amended): for every chat request that passes the check for [n] and
    whose temperature can be doubled, the value of [candidate_count] is on
    the wire under the key [n], the key [candidate_count] is not on the
    wire, and every other key of the request except [temperature] is on
    the wire with its own value; [temperature] is there with the doubled
    value. *)
Theorem candidate_count_is_renamed_to_n self payload t t2 :
  Dict.contains "n" (jsonable_encoder payload) = false ->
  Dict.get "temperature" (jsonable_encoder payload) = Some t ->
  double t = Ret t2 ->
  exists r,
    awaited (chat self payload) = Some r /\
    (forall k,
       Dict.get "candidate_count" (jsonable_encoder payload) = Some k ->
       Dict.get "n" (req_payload r) = Some k) /\
    Dict.get "candidate_count" (req_payload r) = None /\
    Dict.get "temperature" (req_payload r) = Some t2 /\
    (forall key v,
       key <> "candidate_count" -> key <> "temperature" ->
       Dict.get key (jsonable_encoder payload) = Some v ->
       Dict.get key (req_payload r) = Some v).
Proof.
  intros Hn Ht Hd.
  assert (Hwf := jsonable_encoder_wf payload).
  rewrite (chat_sends self payload Hn Ht Hd).
  eexists. split; [reflexivity|]. simpl.
  apply contains_false in Hn.
  repeat split.
  - intros k Hk.
    rewrite with_model_get by apply sampling_payload_wf.
    rewrite get_set_other by discriminate.
    rewrite rename_target by (assumption || discriminate).
    now rewrite Hk.
  - rewrite with_model_get by apply sampling_payload_wf.
    rewrite get_set_other by discriminate.
    now rewrite rename_source by discriminate.
  - rewrite with_model_get by apply sampling_payload_wf.
    now rewrite get_set_same.
  - intros key v Hcc Htemp Hkey.
    assert (key <> "n") by (intros ->; congruence).
    rewrite with_model_get by apply sampling_payload_wf.
    rewrite get_set_other by assumption.
    rewrite rename_other by assumption.
    now rewrite Hkey.
Qed.

Lemma candidate_count_is_renamed_to_n_witness :
  exists r,
    awaited (chat Sample.provider Sample.chat_request) = Some r /\
    (forall k,
       Dict.get "candidate_count" (jsonable_encoder Sample.chat_request)
         = Some k ->
       Dict.get "n" (req_payload r) = Some k) /\
    Dict.get "candidate_count" (req_payload r) = None /\
    Dict.get "temperature" (req_payload r) = Some (JFloat 1) /\
    (forall key v,
       key <> "candidate_count" -> key <> "temperature" ->
       Dict.get key (jsonable_encoder Sample.chat_request) = Some v ->
       Dict.get key (req_payload r) = Some v).
Proof.
  apply (candidate_count_is_renamed_to_n Sample.provider Sample.chat_request
           (JFloat 0.5) (JFloat 1)); reflexivity.
Defined.
End Sampling.

Section Responses.
Import DictFacts.
Import OpenAIProvider.

(** The return expression of [chat] on a well-shaped body. *)
Lemma chat_response_ok self d cs cands u pt ct tt m :
  Dict.get "choices" d = Some (JList cs) ->
  Forall2 chat_choice cs cands ->
  Dict.get "usage" d = Some (JDict u) ->
  Dict.get "prompt_tokens" u = Some pt ->
  Dict.get "completion_tokens" u = Some ct ->
  Dict.get "total_tokens" u = Some tt ->
  Dict.get "model" d = Some m ->
  chat_response self (JDict d) =
  Ret (Chat.mkResponsePayload cands
         (Metadata.make pt ct tt m (RouteConfig.route_type (config self)))).
Proof.
  intros Hc Hcs Hu Hpt Hct Htt Hm. unfold chat_response.
  simpl. rewrite Hc. simpl.
  rewrite (comprehension_Forall2 chat_candidate (rs := cands)).
  - simpl. now rewrite (usage_metadata_ok self d Hu Hpt Hct Htt Hm).
  - eapply Forall2_impl; [|exact Hcs]. apply chat_candidate_ok.
Qed.

Lemma completions_response_ok self d cs cands u pt ct tt m :
  Dict.get "choices" d = Some (JList cs) ->
  Forall2 completions_choice cs cands ->
  Dict.get "usage" d = Some (JDict u) ->
  Dict.get "prompt_tokens" u = Some pt ->
  Dict.get "completion_tokens" u = Some ct ->
  Dict.get "total_tokens" u = Some tt ->
  Dict.get "model" d = Some m ->
  completions_response self (JDict d) =
  Ret (Completions.mkResponsePayload cands
         (Metadata.make pt ct tt m (RouteConfig.route_type (config self)))).
Proof.
  intros Hc Hcs Hu Hpt Hct Htt Hm. unfold completions_response.
  simpl. rewrite Hc. simpl.
  rewrite (comprehension_Forall2 completions_candidate (rs := cands)).
  - simpl. now rewrite (usage_metadata_ok self d Hu Hpt Hct Htt Hm).
  - eapply Forall2_impl; [|exact Hcs]. apply completions_candidate_ok.
Qed.

(** C3: a completions request that passes the check for [n], whose
    temperature can be doubled and which has its prompt is sent to the path
    [chat/completions]; the wire payload has no key [prompt] and holds under
    [messages] the single message of role [user] whose content is the
    prompt; and resumed with a chat-shaped body the operation returns one
    candidate per choice, in order, whose text is the content of the
    choice's message. *)
Theorem completions_is_sent_as_chat self payload t t2 prompt :
  Dict.contains "n" (jsonable_encoder payload) = false ->
  Dict.get "temperature" (jsonable_encoder payload) = Some t ->
  double t = Ret t2 ->
  Dict.get "prompt" (jsonable_encoder payload) = Some prompt ->
  exists r,
    awaited (completions self payload) = Some r /\
    req_path r = "chat/completions" /\
    Dict.get "prompt" (req_payload r) = None /\
    Dict.get "messages" (req_payload r) =
      Some (JList [JDict [("role", JStr "user"); ("content", prompt)]]) /\
    (forall d cs cands u pt ct tt m,
       Dict.get "choices" d = Some (JList cs) ->
       Forall2 completions_choice cs cands ->
       Dict.get "usage" d = Some (JDict u) ->
       Dict.get "prompt_tokens" u = Some pt ->
       Dict.get "completion_tokens" u = Some ct ->
       Dict.get "total_tokens" u = Some tt ->
       Dict.get "model" d = Some m ->
       resume (completions self payload) (JDict d) =
       Ret (Completions.mkResponsePayload cands
              (Metadata.make pt ct tt m
                 (RouteConfig.route_type (config self))))).
Proof.
  intros Hn Ht Hd Hp.
  rewrite (completions_sends self payload Hn Ht Hd Hp).
  eexists. split; [reflexivity|]. simpl.
  assert (Hwf : Dict.wf
                  (Dict.set "messages" (user_messages prompt)
                     (Dict.remove "prompt"
                        (Dict.set "temperature" t2
                           (rename_payload_keys (jsonable_encoder payload)
                              [("candidate_count", "n")])))))
    by apply wf_set, wf_remove, sampling_payload_wf.
  repeat split.
  - rewrite with_model_get by exact Hwf.
    rewrite get_set_other by discriminate.
    now rewrite get_remove_same.
  - rewrite with_model_get by exact Hwf.
    now rewrite get_set_same.
  - intros d cs cands u pt ct tt m. apply completions_response_ok.
Qed.

Lemma completions_is_sent_as_chat_witness :
  exists r,
    awaited (completions Sample.provider Sample.completions_request)
      = Some r /\
    req_path r = "chat/completions" /\
    Dict.get "prompt" (req_payload r) = None /\
    Dict.get "messages" (req_payload r) =
      Some (JList [JDict [("role", JStr "user");
                          ("content", JStr "Say hi")]]) /\
    resume (completions Sample.provider Sample.completions_request)
      (JDict Sample.chat_body) =
    Ret (Completions.mkResponsePayload
           [Completions.mkCandidate (JStr "hi")
              (Completions.mkCandidateMetadata (JStr "stop"))]
           (Metadata.make (JInt 13) (JInt 7) (JInt 20) (JStr "gpt-x")
              LLM_V1_CHAT)).
Proof.
  destruct (completions_is_sent_as_chat Sample.provider
              Sample.completions_request (JFloat 1.5) (JFloat 3)
              (JStr "Say hi") eq_refl eq_refl eq_refl eq_refl)
    as (r & Hr & Hpath & Hprompt & Hmsg & Hresp).
  exists r.
  split; [exact Hr|]. split; [exact Hpath|].
  split; [exact Hprompt|]. split; [exact Hmsg|].
  eapply Hresp; try reflexivity.
  repeat econstructor.
Defined.

(** C4: whenever [chat] has sent its request and is resumed with a body of
    the provider's chat shape, it returns one candidate per entry of
    [choices], in order, each carrying the role, the content and the finish
    reason of its choice, and a metadata block with the three token counts
    of [usage], the model name of the body and the route type of the
    configuration; on the fixed one-choice body the result is the canonical
    response of the round-trip property. *)
Theorem chat_response_is_normalized self payload r :
  awaited (chat self payload) = Some r ->
  (forall d cs cands u pt ct tt m,
     Dict.get "choices" d = Some (JList cs) ->
     Forall2 chat_choice cs cands ->
     Dict.get "usage" d = Some (JDict u) ->
     Dict.get "prompt_tokens" u = Some pt ->
     Dict.get "completion_tokens" u = Some ct ->
     Dict.get "total_tokens" u = Some tt ->
     Dict.get "model" d = Some m ->
     resume (chat self payload) (JDict d) =
     Ret (Chat.mkResponsePayload cands
            (Metadata.make pt ct tt m
               (RouteConfig.route_type (config self))))) /\
  resume (chat self payload) (JDict Sample.chat_body) =
  Ret (Chat.mkResponsePayload
         [Chat.mkCandidate (Chat.mkMessage (JStr "assistant") (JStr "hi"))
            (Chat.mkCandidateMetadata (JStr "stop"))]
         (Metadata.make (JInt 13) (JInt 7) (JInt 20) (JStr "gpt-x")
            (RouteConfig.route_type (config self)))).
Proof.
  intros Hr. rewrite (chat_awaited self payload Hr). simpl. split.
  - intros d cs cands u pt ct tt m. apply chat_response_ok.
  - reflexivity.
Qed.

Lemma chat_response_is_normalized_witness :
  awaited (chat Sample.provider Sample.chat_request) <> None /\
  resume (chat Sample.provider Sample.chat_request) (JDict Sample.chat_body)
  = Ret (Sample.chat_canonical LLM_V1_CHAT).
Proof.
  split; [discriminate|].
  apply (chat_response_is_normalized Sample.provider Sample.chat_request _
           eq_refl).
Defined.
End Responses.

Section EmbeddingsOperation.
Import DictFacts.
Import OpenAIProvider.

(** C7: every embeddings request is sent, to the path [embeddings]; the
    wire payload never has the key [text]; when the request carries [text],
    the wire payload holds the value of [text] under [input]; and every
    other key of the request, [temperature] and [n] among them, is carried
    as it is, with neither a rescaling nor a rejection. *)
Theorem text_is_renamed_to_input self payload :
  exists r,
    awaited (embeddings self payload) = Some r /\
    req_path r = "embeddings" /\
    Dict.get "text" (req_payload r) = None /\
    (forall text,
       Dict.get "text" (jsonable_encoder payload) = Some text ->
       Dict.get "input" (req_payload r) = Some text) /\
    (forall key,
       key <> "text" -> key <> "input" -> key <> "model" ->
       Dict.get key (req_payload r) =
       Dict.get key (jsonable_encoder payload)).
Proof.
  assert (Hwf := jsonable_encoder_wf payload).
  rewrite embeddings_sends.
  eexists. split; [reflexivity|]. simpl.
  split; [reflexivity|]. split; [|split].
  - rewrite with_model_get by apply renamed_request_wf.
    now rewrite rename_source by discriminate.
  - intros text Htext.
    rewrite with_model_get by apply renamed_request_wf.
    now rewrite (@rename_moved "text" "input" _ text Htext).
  - intros key Htext Hinput Hmodel.
    rewrite with_model_get by apply renamed_request_wf.
    rewrite rename_other by assumption.
    apply String.eqb_neq in Hmodel. rewrite Hmodel.
    now destruct (Dict.get key (jsonable_encoder payload)).
Qed.

Lemma text_is_renamed_to_input_witness :
  (exists r,
     awaited (embeddings Sample.provider Sample.embeddings_request)
       = Some r /\
     Dict.get "text" (req_payload r) = None /\
     Dict.get "input" (req_payload r) = Some (JStr "hello") /\
     Dict.get "temperature" (req_payload r) = Some (JFloat 0.5) /\
     Dict.get "n" (req_payload r) = Some (JInt 3)) /\
  (exists r,
     awaited (embeddings Sample.provider
                Sample.embeddings_request_with_input) = Some r /\
     Dict.get "text" (req_payload r) = None /\
     Dict.get "input" (req_payload r) = Some (JStr "hello")).
Proof.
  split.
  - destruct (text_is_renamed_to_input Sample.provider
                Sample.embeddings_request)
      as (r & Hr & _ & Htext & Hinput & Hother).
    exists r.
    split; [exact Hr|]. split; [exact Htext|].
    split; [apply Hinput; reflexivity|].
    split; (rewrite Hother; [reflexivity | discriminate ..]).
  - destruct (text_is_renamed_to_input Sample.provider
                Sample.embeddings_request_with_input)
      as (r & Hr & _ & Htext & Hinput & _).
    exists r.
    split; [exact Hr|]. split; [exact Htext|].
    apply Hinput. reflexivity.
Defined.

(** C8: resumed with a body of the provider's embeddings shape, whatever
    its usage block holds besides, [embeddings] returns the vectors of
    [data] in order and a metadata block whose output tokens are the
    integer 0 and whose input and total tokens are [prompt_tokens] and
    [total_tokens] of the usage block; and no body at all makes it return a
    response with other output tokens. *)
Theorem embeddings_output_tokens_is_zero self payload :
  (forall d data vecs u pt tt m,
     Dict.get "data" d = Some (JList data) ->
     Forall2 embedding_item data vecs ->
     Dict.get "usage" d = Some (JDict u) ->
     Dict.get "prompt_tokens" u = Some pt ->
     Dict.get "total_tokens" u = Some tt ->
     Dict.get "model" d = Some m ->
     resume (embeddings self payload) (JDict d) =
     Ret (Embeddings.mkResponsePayload vecs
            (Metadata.make pt (JInt 0) tt m
               (RouteConfig.route_type (config self))))) /\
  (forall resp out,
     resume (embeddings self payload) resp = Ret out ->
     Metadata.output_tokens (Embeddings.metadata out) = JInt 0).
Proof.
  rewrite embeddings_sends. simpl. split.
  - intros d data vecs u pt tt m Hdata Hvecs Hu Hpt Htt Hm.
    unfold embeddings_response. simpl. rewrite Hdata. simpl.
    rewrite (comprehension_Forall2 (fun x => getitem x "embedding")
               (rs := vecs)).
    + simpl. rewrite Hu. simpl. rewrite Hpt, Htt. simpl. now rewrite Hm.
    + eapply Forall2_impl; [|exact Hvecs]. apply embedding_item_ok.
  - intros resp out. unfold embeddings_response.
    destruct (getitem resp "data") as [data| |]; simpl; try discriminate.
    destruct (iterate data) as [items| |]; simpl; try discriminate.
    destruct (comprehension _ items) as [vecs| |]; simpl; try discriminate.
    destruct (getitem resp "usage") as [u| |]; simpl; try discriminate.
    destruct (getitem u "prompt_tokens") as [pt| |]; simpl;
      try discriminate.
    destruct (getitem u "total_tokens") as [tt| |]; simpl;
      try discriminate.
    destruct (getitem resp "model") as [m| |]; simpl; try discriminate.
    now intros [= <-].
Qed.

Lemma embeddings_output_tokens_is_zero_witness :
  Dict.get "completion_tokens" Sample.embeddings_usage = Some (JInt 99) /\
  resume (embeddings Sample.provider Sample.embeddings_request)
    (JDict Sample.embeddings_body) =
  Ret (Embeddings.mkResponsePayload
         [JList [JFloat 0.5; JFloat 0.25]]
         (Metadata.make (JInt 8) (JInt 0) (JInt 8)
            (JStr "text-embedding-ada-002") LLM_V1_CHAT)).
Proof.
  split; [reflexivity|].
  eapply (proj1 (embeddings_output_tokens_is_zero Sample.provider
                   Sample.embeddings_request));
    try reflexivity.
  repeat econstructor.
Defined.
End EmbeddingsOperation.

Section Construction.
Import DictFacts.
Import OpenAIProvider.

(** C9, as stated, fails: the header is set under [if org], which is false
    for the empty string too, so a configuration whose organization id is
    present and empty yields no [OpenAI-Organization] header. *)
Lemma blank_organization_sets_no_header :
  OpenAIConfig.openai_organization Sample.blank_organization = Some "" /\
  exists self,
    init (Sample.route LLM_V1_CHAT
            (Some (IsOpenAIConfig Sample.blank_organization))) = inr self /\
    Dict.contains "OpenAI-Organization" (headers self) = false.
Proof.
  split; [reflexivity|]. eexists. split; reflexivity.
Qed.

(** C9 (amended): construction fails, with [TypeError], whenever the
    provider-specific configuration is absent or another provider's; on the
    OpenAI variant it succeeds and stores the route configuration, the
    header [Authorization: Bearer <key>], the header [OpenAI-Organization]
    exactly when the organization id is present and not the empty string,
    and the configured base URL. *)
Theorem construction_checks_the_config config :
  (Model.config (RouteConfig.model config) = None ->
   init config = inl TypeError) /\
  (forall p,
     Model.config (RouteConfig.model config) = Some (IsOtherConfig p) ->
     init config = inl TypeError) /\
  (forall c,
     Model.config (RouteConfig.model config) = Some (IsOpenAIConfig c) ->
     exists self,
       init config = inr self /\
       OpenAIProvider.config self = config /\
       openai_config self = c /\
       Dict.get "Authorization" (headers self) =
         Some ("Bearer " ++ OpenAIConfig.openai_api_key c) /\
       (forall org,
          Dict.get "OpenAI-Organization" (headers self) = Some org <->
          OpenAIConfig.openai_organization c = Some org /\ org <> "") /\
       (forall k, Dict.contains k (headers self) = true ->
                  k = "Authorization" \/ k = "OpenAI-Organization") /\
       base_url self = OpenAIConfig.openai_api_base c).
Proof.
  unfold init. repeat split.
  - intros ->. reflexivity.
  - intros p ->. reflexivity.
  - intros c ->. eexists. split; [reflexivity|]. simpl.
    split; [reflexivity|]. split; [reflexivity|].
    destruct (OpenAIConfig.openai_organization c) as [[|a org]|]; simpl.
    + split; [reflexivity|]. split; [|split; [|reflexivity]].
      * intros org. split; [discriminate|]. intros [[= <-] H]. congruence.
      * intros k. unfold Dict.contains. simpl.
        destruct (String.eqb k "Authorization") eqn:E; [|discriminate].
        apply String.eqb_eq in E. auto.
    + split; [reflexivity|]. split; [|split; [|reflexivity]].
      * intros org'. split.
        -- intros [= <-]. split; [reflexivity | discriminate].
        -- intros [[= <-] _]. reflexivity.
      * intros k. unfold Dict.contains. simpl.
        destruct (String.eqb k "Authorization") eqn:E.
        -- apply String.eqb_eq in E. auto.
        -- destruct (String.eqb k "OpenAI-Organization") eqn:E';
             [|discriminate].
           apply String.eqb_eq in E'. auto.
    + split; [reflexivity|]. split; [|split; [|reflexivity]].
      * intros org. split; [discriminate|]. intros [H _]. discriminate.
      * intros k. unfold Dict.contains. simpl.
        destruct (String.eqb k "Authorization") eqn:E; [|discriminate].
        apply String.eqb_eq in E. auto.
Qed.

Lemma construction_checks_the_config_witness :
  init (Sample.route LLM_V1_CHAT None) = inl TypeError /\
  init (Sample.route LLM_V1_CHAT (Some (IsOtherConfig "anthropic")))
    = inl TypeError /\
  exists self,
    init (Sample.route LLM_V1_CHAT
            (Some (IsOpenAIConfig Sample.openai_config))) = inr self /\
    Dict.get "Authorization" (headers self) = Some "Bearer sk-test" /\
    Dict.get "OpenAI-Organization" (headers self) = Some "org-1" /\
    base_url self = "https://api.openai.com/v1".
Proof.
  split; [|split].
  - apply (construction_checks_the_config (Sample.route LLM_V1_CHAT None)).
    reflexivity.
  - apply (construction_checks_the_config
             (Sample.route LLM_V1_CHAT (Some (IsOtherConfig "anthropic")))
           ) with (p := "anthropic").
    reflexivity.
  - destruct (construction_checks_the_config
                (Sample.route LLM_V1_CHAT
                   (Some (IsOpenAIConfig Sample.openai_config))))
      as (_ & _ & H).
    destruct (H Sample.openai_config eq_refl)
      as (self & Hinit & _ & _ & Hauth & Horg & _ & Hbase).
    exists self.
    split; [exact Hinit|]. split; [exact Hauth|].
    split; [|exact Hbase].
    apply Horg. split; [reflexivity | discriminate].
Defined.
End Construction.

(** * Further properties of the provider *)

Section Purity.
Import DictFacts.
Import OpenAIProvider.

(** Expressions that do not await: they return or raise. *)
Lemma bind_awaited_None {A B : Type} (m : prog A) (f : A -> prog B) :
  awaited m = None ->
  (forall a, awaited (f a) = None) ->
  awaited (bind m f) = None.
Proof.
  destruct m as [a|e|r k]; simpl; intros Hm Hf; auto; discriminate.
Qed.

Lemma getitem_awaited x k : awaited (getitem x k) = None.
Proof.
  destruct x; simpl; auto. destruct (Dict.get k d); reflexivity.
Qed.

Lemma iterate_awaited x : awaited (iterate x) = None.
Proof. destruct x; reflexivity. Qed.

Lemma comprehension_awaited {A : Type} (f : json -> prog A) l :
  (forall c, awaited (f c) = None) ->
  awaited (comprehension f l) = None.
Proof.
  intros Hf. induction l as [|c l IH]; simpl; auto.
  apply bind_awaited_None; [apply Hf|]. intros a.
  apply bind_awaited_None; [exact IH|]. reflexivity.
Qed.

Ltac no_await :=
  repeat first
    [ reflexivity
    | apply getitem_awaited
    | apply iterate_awaited
    | apply bind_awaited_None; [|intro]
    | apply comprehension_awaited; intro ].

Lemma usage_metadata_awaited self resp :
  awaited (usage_metadata self resp) = None.
Proof. unfold usage_metadata. no_await. Qed.

Lemma chat_response_awaited self resp :
  awaited (chat_response self resp) = None.
Proof.
  unfold chat_response, chat_candidate. no_await.
Qed.

Lemma completions_response_awaited self resp :
  awaited (completions_response self resp) = None.
Proof.
  unfold completions_response, completions_candidate. no_await.
Qed.

Lemma embeddings_response_awaited self resp :
  awaited (embeddings_response self resp) = None.
Proof. unfold embeddings_response. no_await. Qed.

(** Running an expression that does not await leaves the record of calls
    alone. *)
Lemma run_awaited_None {A : Type} sender (m : prog A) calls :
  awaited m = None -> snd (run sender m calls) = calls.
Proof. destruct m; simpl; auto. discriminate. Qed.

(** A coroutine that awaits once: the sender is called with the awaited
    request and with nothing else. *)
Lemma run_single_await {A : Type} sender r (k : json -> prog A) calls :
  (forall j, awaited (k j) = None) ->
  snd (run sender (Await r k) calls) = (calls ++ [r])%list.
Proof.
  intros Hk. simpl. destruct (sender r) as [e|j]; simpl; auto.
  now apply run_awaited_None.
Qed.

(** What [chat] and [completions] are before any body arrives. *)
Lemma chat_cases self payload :
  chat self payload = Raise invalid_parameter_n \/
  chat self payload = Raise (KeyError "temperature") \/
  chat self payload = Raise TypeError \/
  exists r, chat self payload = Await r (chat_response self).
Proof.
  destruct (awaited (chat self payload)) as [r|] eqn:Hr.
  - right. right. right. exists r. now apply chat_awaited.
  - revert Hr. unfold chat, lookup. rewrite sampling_temperature.
    destruct (Dict.contains "n" (jsonable_encoder payload)); auto.
    destruct (Dict.get "temperature" _) as [t|]; auto.
    destruct t; simpl; auto; discriminate.
Qed.

Lemma completions_cases self payload :
  completions self payload = Raise invalid_parameter_n \/
  completions self payload = Raise (KeyError "temperature") \/
  completions self payload = Raise TypeError \/
  completions self payload = Raise (KeyError "prompt") \/
  exists r, completions self payload = Await r (completions_response self).
Proof.
  destruct (awaited (completions self payload)) as [r|] eqn:Hr.
  - do 4 right. exists r. now apply completions_awaited.
  - revert Hr. unfold completions, lookup, pop. rewrite sampling_temperature.
    destruct (Dict.contains "n" (jsonable_encoder payload)); auto.
    destruct (Dict.get "temperature" _) as [t|]; auto.
    simpl. destruct (double t) as [t2| |] eqn:Hd; simpl.
    + rewrite get_set_other by discriminate.
      rewrite rename_other;
        [| discriminate | discriminate | apply jsonable_encoder_wf].
      destruct (Dict.get "prompt" _); simpl; auto. discriminate.
    + destruct t; simpl in Hd; try discriminate Hd;
        injection Hd as <-; auto.
    + destruct t; discriminate Hd.
Qed.
End Purity.

Section Calls.
Import DictFacts.
Import OpenAIProvider.

Lemma single_await_calls_only_what_it_awaits {A : Type} r
    (k : json -> prog A) :
  (forall j, awaited (k j) = None) ->
  calls_only_what_it_awaits (Await r k).
Proof.
  intros Hk sender calls. simpl. split.
  - apply (run_single_await sender r k calls Hk).
  - intros e He. simpl. now rewrite He.
Qed.

Lemma raise_calls_only_what_it_awaits {A : Type} e :
  calls_only_what_it_awaits (@Raise A e).
Proof. intros sender calls. reflexivity. Qed.

(** X1: a provider built by the constructor from an OpenAI configuration
    sends, on every request of every operation, the headers it derived
    (the bearer credential, and the organization when it is a non-empty
    string) and the configured base URL, whatever the request payload
    holds. *)
Theorem constructed_provider_sends_its_credentials config c self payload r :
  Model.config (RouteConfig.model config) = Some (IsOpenAIConfig c) ->
  init config = inr self ->
  awaited (chat self payload) = Some r \/
  awaited (completions self payload) = Some r \/
  awaited (embeddings self payload) = Some r ->
  Dict.get "Authorization" (req_headers r) =
    Some ("Bearer " ++ OpenAIConfig.openai_api_key c) /\
  (forall org,
     OpenAIConfig.openai_organization c = Some org -> org <> "" ->
     Dict.get "OpenAI-Organization" (req_headers r) = Some org) /\
  req_base_url r = OpenAIConfig.openai_api_base c.
Proof.
  intros Hc Hinit Hr.
  assert (Hreq : req_headers r = headers self /\ req_base_url r = base_url self).
  { destruct Hr as [Hr|[Hr|Hr]].
    - destruct (chat_awaited_inv _ _ Hr) as (t & t2 & _ & _ & _ & ->).
      now split.
    - destruct (completions_awaited_inv _ _ Hr)
        as (t & t2 & p & _ & _ & _ & _ & ->).
      now split.
    - rewrite embeddings_sends in Hr. injection Hr as <-. now split. }
  destruct Hreq as [-> ->].
  unfold init in Hinit. rewrite Hc in Hinit. injection Hinit as <-. simpl.
  destruct (OpenAIConfig.openai_organization c) as [[|a org]|]; simpl;
    repeat split; try reflexivity; intros org' H; try discriminate.
  - injection H as <-. congruence.
  - injection H as <-. reflexivity.
Qed.

Lemma constructed_provider_sends_its_credentials_witness :
  exists r,
    awaited (embeddings Sample.provider Sample.embeddings_request) = Some r /\
    Dict.get "Authorization" (req_headers r) = Some "Bearer sk-test" /\
    Dict.get "OpenAI-Organization" (req_headers r) = Some "org-1" /\
    req_base_url r = "https://api.openai.com/v1".
Proof.
  eexists. split; [reflexivity|].
  pose proof (eq_refl :
    awaited (embeddings Sample.provider Sample.embeddings_request) = Some _)
    as Hr.
  destruct (constructed_provider_sends_its_credentials
              (Sample.route LLM_V1_CHAT
                 (Some (IsOpenAIConfig Sample.openai_config)))
              Sample.openai_config Sample.provider
              Sample.embeddings_request _ eq_refl eq_refl
              (or_intror (or_intror Hr)))
    as (Hauth & Horg & Hbase).
  split; [exact Hauth|]. split; [|exact Hbase].
  apply Horg; [reflexivity | discriminate].
Defined.

(** X2: run against any sender, each operation calls the sender at most
    once, with the request it is suspended on, and an exception of the
    sender is the outcome of the operation; an operation that fails on its
    own checks calls nothing; [embeddings] has no such check and always
    calls once. *)
Theorem operations_call_the_sender_at_most_once self payload :
  calls_only_what_it_awaits (chat self payload) /\
  calls_only_what_it_awaits (completions self payload) /\
  calls_only_what_it_awaits (embeddings self payload) /\
  awaited (embeddings self payload) <> None.
Proof.
  split; [|split; [|split]].
  - destruct (chat_cases self payload) as [H|[H|[H|[r H]]]]; rewrite H;
      try apply raise_calls_only_what_it_awaits.
    apply single_await_calls_only_what_it_awaits.
    apply chat_response_awaited.
  - destruct (completions_cases self payload) as [H|[H|[H|[H|[r H]]]]];
      rewrite H; try apply raise_calls_only_what_it_awaits.
    apply single_await_calls_only_what_it_awaits.
    apply completions_response_awaited.
  - rewrite embeddings_sends.
    apply single_await_calls_only_what_it_awaits.
    apply embeddings_response_awaited.
  - rewrite embeddings_sends. simpl. discriminate.
Qed.

(** X3: the only exceptions [chat] raises before any request is sent are
    the [HTTPException] for [n], the [KeyError] for [temperature] and a
    [TypeError] (a temperature that cannot be doubled); [completions] adds
    the [KeyError] for [prompt]. *)
Theorem local_failures_are_known self payload e :
  (chat self payload = Raise e ->
   e = HTTPException 400
         "Invalid parameter `n`. Use `candidate_count` instead." \/
   e = KeyError "temperature" \/ e = TypeError) /\
  (completions self payload = Raise e ->
   e = HTTPException 400
         "Invalid parameter `n`. Use `candidate_count` instead." \/
   e = KeyError "temperature" \/ e = TypeError \/ e = KeyError "prompt").
Proof.
  split; intros He.
  - destruct (chat_cases self payload) as [H|[H|[H|[r H]]]];
      rewrite H in He; try discriminate He; injection He as <-; auto.
  - destruct (completions_cases self payload) as [H|[H|[H|[H|[r H]]]]];
      rewrite H in He; try discriminate He; injection He as <-; auto.
Qed.

Lemma local_failures_are_known_witness :
  completions Sample.provider Cases.completions_request_without_prompt
    = Raise (KeyError "prompt") /\
  (KeyError "prompt" =
     HTTPException 400
       "Invalid parameter `n`. Use `candidate_count` instead." \/
   KeyError "prompt" = KeyError "temperature" \/
   KeyError "prompt" = TypeError \/
   KeyError "prompt" = KeyError "prompt").
Proof.
  split; [reflexivity|].
  apply (local_failures_are_known Sample.provider
           Cases.completions_request_without_prompt (KeyError "prompt")).
  reflexivity.
Defined.
End Calls.

Section Bodies.
Import DictFacts.
Import OpenAIProvider.

Lemma embeddings_response_ok self d data vecs u pt tt m :
  Dict.get "data" d = Some (JList data) ->
  Forall2 embedding_item data vecs ->
  Dict.get "usage" d = Some (JDict u) ->
  Dict.get "prompt_tokens" u = Some pt ->
  Dict.get "total_tokens" u = Some tt ->
  Dict.get "model" d = Some m ->
  embeddings_response self (JDict d) =
  Ret (Embeddings.mkResponsePayload vecs
         (Metadata.make pt (JInt 0) tt m
            (RouteConfig.route_type (config self)))).
Proof.
  intros Hdata Hvecs Hu Hpt Htt Hm.
  unfold embeddings_response. simpl. rewrite Hdata. simpl.
  rewrite (comprehension_Forall2 (fun x => getitem x "embedding")
             (rs := vecs)).
  - simpl. rewrite Hu. simpl. rewrite Hpt, Htt. simpl. now rewrite Hm.
  - eapply Forall2_impl; [|exact Hvecs]. apply embedding_item_ok.
Qed.

(** A comprehension stops at the first item whose expression raises. *)
Lemma comprehension_raises {A : Type} (f : json -> prog A) good rs bad rest
    e :
  Forall2 (fun c r => f c = Ret r) good rs ->
  f bad = Raise e ->
  comprehension f (good ++ bad :: rest) = Raise e.
Proof.
  intros Hgood Hbad.
  induction Hgood as [|c r good rs Hc _ IH]; simpl.
  - now rewrite Hbad.
  - now rewrite Hc, IH.
Qed.

Lemma chat_candidate_missing c key :
  missing_in_choice c key -> chat_candidate (JDict c) = Raise (KeyError key).
Proof.
  unfold chat_candidate, getitem.
  intros [c' Hm | c' m Hm Hr | c' m role Hm Hr Hc
          | c' m role content Hm Hr Hc Hf].
  - now rewrite Hm.
  - rewrite Hm. simpl. now rewrite Hr.
  - rewrite Hm. simpl. rewrite Hr. simpl. now rewrite Hc.
  - rewrite Hm. simpl. rewrite Hr, Hc. simpl. now rewrite Hf.
Qed.

(** X4: run against a sender that answers the embeddings request with a
    well-shaped body, [embeddings] returns the vectors of [data] in the
    order of the body, after exactly one call; the request needs to pass
    no check. *)
Theorem embeddings_keeps_the_order_of_data self payload sender calls r d data
    vecs u pt tt m :
  awaited (embeddings self payload) = Some r ->
  sender r = inr (JDict d) ->
  Dict.get "data" d = Some (JList data) ->
  Forall2 embedding_item data vecs ->
  Dict.get "usage" d = Some (JDict u) ->
  Dict.get "prompt_tokens" u = Some pt ->
  Dict.get "total_tokens" u = Some tt ->
  Dict.get "model" d = Some m ->
  run sender (embeddings self payload) calls =
  (inr (Embeddings.mkResponsePayload vecs
          (Metadata.make pt (JInt 0) tt m
             (RouteConfig.route_type (config self)))),
   (calls ++ [r])%list).
Proof.
  intros Hr Hs Hdata Hvecs Hu Hpt Htt Hm.
  rewrite embeddings_sends in Hr |- *. injection Hr as Hr.
  rewrite run_Await, Hr, Hs.
  now rewrite (embeddings_response_ok self d data vecs u pt tt m
                 Hdata Hvecs Hu Hpt Htt Hm).
Qed.

Lemma embeddings_keeps_the_order_of_data_witness :
  exists r,
    awaited (embeddings Sample.provider Sample.embeddings_request) = Some r /\
    run (Cases.answers
           (JDict [("data",
                    JList [JDict [("embedding", JList [JInt 1]);
                                  ("index", JInt 0)];
                           JDict [("embedding", JList [JInt 2]);
                                  ("index", JInt 1)]]);
                   ("model", JStr "ada");
                   ("usage", JDict Cases.usage_without_completion)]))
        (embeddings Sample.provider Sample.embeddings_request) [] =
    (inr (Embeddings.mkResponsePayload [JList [JInt 1]; JList [JInt 2]]
            (Metadata.make (JInt 8) (JInt 0) (JInt 8) (JStr "ada")
               LLM_V1_CHAT)),
     [r]).
Proof.
  eexists. split; [reflexivity|].
  eapply (embeddings_keeps_the_order_of_data Sample.provider
            Sample.embeddings_request _ [] _ _ _ _ _ _ _ _ eq_refl);
    try reflexivity.
  repeat econstructor.
Defined.

(** X5: a provider built by the constructor, run on a chat request that
    passes its checks against a sender that answers with a well-shaped
    body, returns the candidates of the body and a metadata block whose
    route type is the one of the configuration it was built from, after
    exactly one call. *)
Theorem constructed_chat_end_to_end config self payload sender calls r d cs
    cands u pt ct tt m :
  init config = inr self ->
  awaited (chat self payload) = Some r ->
  sender r = inr (JDict d) ->
  Dict.get "choices" d = Some (JList cs) ->
  Forall2 chat_choice cs cands ->
  Dict.get "usage" d = Some (JDict u) ->
  Dict.get "prompt_tokens" u = Some pt ->
  Dict.get "completion_tokens" u = Some ct ->
  Dict.get "total_tokens" u = Some tt ->
  Dict.get "model" d = Some m ->
  run sender (chat self payload) calls =
  (inr (Chat.mkResponsePayload cands
          (Metadata.make pt ct tt m (RouteConfig.route_type config))),
   (calls ++ [r])%list).
Proof.
  intros Hinit Hr Hs Hc Hcs Hu Hpt Hct Htt Hm.
  assert (Hcfg : OpenAIProvider.config self = config).
  { unfold init in Hinit.
    destruct (Model.config (RouteConfig.model config)) as [[c|p]|];
      try discriminate Hinit.
    injection Hinit as <-. reflexivity. }
  rewrite (chat_awaited self payload Hr), run_Await, Hs.
  rewrite (chat_response_ok self d cs cands u pt ct tt m
             Hc Hcs Hu Hpt Hct Htt Hm).
  now rewrite Hcfg.
Qed.

Lemma constructed_chat_end_to_end_witness :
  exists r,
    awaited (chat Sample.provider Sample.chat_request) = Some r /\
    run (Cases.answers (JDict Sample.chat_body))
        (chat Sample.provider Sample.chat_request) [] =
    (inr (Sample.chat_canonical LLM_V1_CHAT), [r]).
Proof.
  eexists. split; [reflexivity|].
  eapply (constructed_chat_end_to_end
            (Sample.route LLM_V1_CHAT
               (Some (IsOpenAIConfig Sample.openai_config)))
            Sample.provider Sample.chat_request _ [] _ _ _ _ _ _ _ _ _
            eq_refl eq_refl);
    try reflexivity.
  repeat econstructor.
Defined.

(** X6: what [chat] does with a body of another shape, in the order in
    which the return expression reads it: a body that is no dictionary
    raises [TypeError]; a missing [choices] raises its [KeyError] whatever
    else the body holds; with well-shaped choices a missing [usage], a
    missing token count of the usage block ([prompt_tokens], then
    [completion_tokens], then [total_tokens]) or a missing [model] raises
    the [KeyError] of that key.  No partial response is returned. *)
Theorem chat_fails_on_a_missing_key self payload r :
  awaited (chat self payload) = Some r ->
  (forall x, (forall d, x <> JDict d) ->
     resume (chat self payload) x = Raise TypeError) /\
  (forall d, Dict.get "choices" d = None ->
     resume (chat self payload) (JDict d) = Raise (KeyError "choices")) /\
  (forall d cs cands,
     Dict.get "choices" d = Some (JList cs) ->
     Forall2 chat_choice cs cands ->
     (Dict.get "usage" d = None ->
      resume (chat self payload) (JDict d) = Raise (KeyError "usage")) /\
     (forall u, Dict.get "usage" d = Some (JDict u) ->
        (Dict.get "prompt_tokens" u = None ->
         resume (chat self payload) (JDict d) =
         Raise (KeyError "prompt_tokens")) /\
        (forall pt, Dict.get "prompt_tokens" u = Some pt ->
           (Dict.get "completion_tokens" u = None ->
            resume (chat self payload) (JDict d) =
            Raise (KeyError "completion_tokens")) /\
           (forall ct, Dict.get "completion_tokens" u = Some ct ->
              (Dict.get "total_tokens" u = None ->
               resume (chat self payload) (JDict d) =
               Raise (KeyError "total_tokens")) /\
              (forall tt, Dict.get "total_tokens" u = Some tt ->
                 Dict.get "model" d = None ->
                 resume (chat self payload) (JDict d) =
                 Raise (KeyError "model")))))).
Proof.
  intros Hr. rewrite (chat_awaited self payload Hr). simpl.
  split; [|split].
  - intros x Hx. destruct x; try reflexivity. now destruct (Hx d).
  - intros d Hc. unfold chat_response. simpl. now rewrite Hc.
  - intros d cs cands Hc Hcs.
    assert (Hcomp : comprehension chat_candidate cs = Ret cands).
    { apply comprehension_Forall2.
      eapply Forall2_impl; [|exact Hcs]. apply chat_candidate_ok. }
    unfold chat_response, usage_metadata. simpl. rewrite Hc. simpl.
    rewrite Hcomp. simpl. split.
    + intros Hu. now rewrite Hu.
    + intros u Hu. rewrite Hu. simpl. split.
      * intros Hpt. now rewrite Hpt.
      * intros pt Hpt. rewrite Hpt. simpl. split.
        -- intros Hct. now rewrite Hct.
        -- intros ct Hct. rewrite Hct. simpl. split.
           ++ intros Htt. now rewrite Htt.
           ++ intros tt Htt Hm. rewrite Htt. simpl. now rewrite Hm.
Qed.

Lemma chat_fails_on_a_missing_key_witness :
  resume (chat Sample.provider Sample.chat_request)
    (JDict [("model", JStr "gpt-x")]) = Raise (KeyError "choices") /\
  resume (chat Sample.provider Sample.chat_request)
    (JDict [("choices", JList [Cases.choice]);
            ("usage", JDict Cases.usage_without_completion)]) =
  Raise (KeyError "completion_tokens").
Proof.
  destruct (chat_fails_on_a_missing_key Sample.provider Sample.chat_request
              _ eq_refl) as (_ & Hchoices & Hrest).
  split.
  - apply Hchoices. reflexivity.
  - eapply Hrest; try reflexivity.
    repeat econstructor.
Defined.
End Bodies.

Section MoreBodies.
Import DictFacts.
Import OpenAIProvider.

(** X7: what [embeddings] does with a body of another shape: a body that
    is no dictionary raises [TypeError]; a missing [data] raises its
    [KeyError]; the first item of [data] without [embedding] raises that
    [KeyError] whatever follows it; with well-shaped data a missing [usage],
    [prompt_tokens], [total_tokens] or [model] raises the [KeyError] of
    that key. *)
Theorem embeddings_fails_on_a_missing_key self payload :
  (forall x, (forall d, x <> JDict d) ->
     resume (embeddings self payload) x = Raise TypeError) /\
  (forall d, Dict.get "data" d = None ->
     resume (embeddings self payload) (JDict d) = Raise (KeyError "data")) /\
  (forall d good vecs item rest,
     Dict.get "data" d = Some (JList (good ++ JDict item :: rest)) ->
     Forall2 embedding_item good vecs ->
     Dict.get "embedding" item = None ->
     resume (embeddings self payload) (JDict d) =
     Raise (KeyError "embedding")) /\
  (forall d data vecs,
     Dict.get "data" d = Some (JList data) ->
     Forall2 embedding_item data vecs ->
     (Dict.get "usage" d = None ->
      resume (embeddings self payload) (JDict d) =
      Raise (KeyError "usage")) /\
     (forall u, Dict.get "usage" d = Some (JDict u) ->
        (Dict.get "prompt_tokens" u = None ->
         resume (embeddings self payload) (JDict d) =
         Raise (KeyError "prompt_tokens")) /\
        (forall pt, Dict.get "prompt_tokens" u = Some pt ->
           (Dict.get "total_tokens" u = None ->
            resume (embeddings self payload) (JDict d) =
            Raise (KeyError "total_tokens")) /\
           (forall tt, Dict.get "total_tokens" u = Some tt ->
              Dict.get "model" d = None ->
              resume (embeddings self payload) (JDict d) =
              Raise (KeyError "model"))))).
Proof.
  rewrite embeddings_sends. simpl. split; [|split; [|split]].
  - intros x Hx. destruct x; try reflexivity. now destruct (Hx d).
  - intros d Hd. unfold embeddings_response. simpl. now rewrite Hd.
  - intros d good vecs item rest Hd Hgood Hitem.
    unfold embeddings_response. simpl. rewrite Hd. simpl.
    rewrite (comprehension_raises (fun x => getitem x "embedding")
               good vecs (JDict item) rest (KeyError "embedding")); auto.
    + eapply Forall2_impl; [|exact Hgood]. apply embedding_item_ok.
    + simpl. now rewrite Hitem.
  - intros d data vecs Hd Hdata.
    assert (Hcomp : comprehension (fun x => getitem x "embedding") data
                    = Ret vecs).
    { apply comprehension_Forall2.
      eapply Forall2_impl; [|exact Hdata]. apply embedding_item_ok. }
    unfold embeddings_response. simpl. rewrite Hd. simpl.
    rewrite Hcomp. simpl. split.
    + intros Hu. now rewrite Hu.
    + intros u Hu. rewrite Hu. simpl. split.
      * intros Hpt. now rewrite Hpt.
      * intros pt Hpt. rewrite Hpt. simpl. split.
        -- intros Htt. now rewrite Htt.
        -- intros tt Htt Hm. rewrite Htt. simpl. now rewrite Hm.
Qed.

Lemma embeddings_fails_on_a_missing_key_witness :
  resume (embeddings Sample.provider Sample.embeddings_request)
    (JDict [("data",
             JList [JDict [("embedding", JList [JInt 1])];
                    JDict [("index", JInt 1)];
                    JDict [("embedding", JList [JInt 3])]]);
            ("usage", JDict Cases.usage_without_completion)]) =
  Raise (KeyError "embedding").
Proof.
  destruct (embeddings_fails_on_a_missing_key Sample.provider
              Sample.embeddings_request) as (_ & _ & Hitem & _).
  apply (Hitem _ [JDict [("embedding", JList [JInt 1])]] [JList [JInt 1]]
           [("index", JInt 1)] [JDict [("embedding", JList [JInt 3])]]);
    try reflexivity.
  repeat econstructor.
Defined.

(** X8: [chat] stops at the first choice in which a key it reads is
    missing and raises the [KeyError] of that key ([message], [role],
    [content] or [finish_reason], in the order it reads them), whatever the
    later choices and the rest of the body hold; the candidates of the
    earlier choices are not returned. *)
Theorem chat_stops_at_the_first_malformed_choice self payload r d good cands c
    key rest :
  awaited (chat self payload) = Some r ->
  Dict.get "choices" d = Some (JList (good ++ JDict c :: rest)) ->
  Forall2 chat_choice good cands ->
  missing_in_choice c key ->
  resume (chat self payload) (JDict d) = Raise (KeyError key).
Proof.
  intros Hr Hd Hgood Hc. rewrite (chat_awaited self payload Hr). simpl.
  unfold chat_response. simpl. rewrite Hd. simpl.
  rewrite (comprehension_raises chat_candidate good cands (JDict c) rest
             (KeyError key)); auto.
  - eapply Forall2_impl; [|exact Hgood]. apply chat_candidate_ok.
  - now apply chat_candidate_missing.
Qed.

Lemma chat_stops_at_the_first_malformed_choice_witness :
  resume (chat Sample.provider Sample.chat_request)
    (JDict [("choices",
             JList [Cases.choice; JDict Cases.choice_without_role;
                    Cases.choice]);
            ("model", JStr "gpt-x")]) =
  Raise (KeyError "role").
Proof.
  apply (chat_stops_at_the_first_malformed_choice Sample.provider
           Sample.chat_request _
           [("choices",
             JList [Cases.choice; JDict Cases.choice_without_role;
                    Cases.choice]);
            ("model", JStr "gpt-x")]
           [Cases.choice] [Cases.candidate]
           Cases.choice_without_role "role" [Cases.choice] eq_refl eq_refl).
  - repeat econstructor.
  - apply (@missing_role Cases.choice_without_role
             Cases.choice_message_without_role); reflexivity.
Defined.

(** X9: a [choices] value that is not a list never yields candidates from
    [chat] or [completions]: a number, a boolean or [None] cannot be
    iterated, and the items of a non-empty string or dictionary are strings,
    which cannot be subscripted by [message]; each raises [TypeError]. *)
Theorem choices_must_be_a_list self payload d x :
  Dict.get "choices" d = Some x ->
  (forall l, x <> JList l) -> x <> JStr "" -> x <> JDict [] ->
  (forall r, awaited (chat self payload) = Some r ->
     resume (chat self payload) (JDict d) = Raise TypeError) /\
  (forall r, awaited (completions self payload) = Some r ->
     resume (completions self payload) (JDict d) = Raise TypeError).
Proof.
  intros Hd Hlist Hstr Hdict.
  split; intros r Hr.
  - rewrite (chat_awaited self payload Hr). simpl.
    unfold chat_response. simpl. rewrite Hd. simpl.
    destruct x as [| | | |s|l|d']; try reflexivity.
    + destruct s; [congruence | reflexivity].
    + now destruct (Hlist l).
    + destruct d' as [|[k v] d']; [congruence | reflexivity].
  - rewrite (completions_awaited self payload Hr). simpl.
    unfold completions_response. simpl. rewrite Hd. simpl.
    destruct x as [| | | |s|l|d']; try reflexivity.
    + destruct s; [congruence | reflexivity].
    + now destruct (Hlist l).
    + destruct d' as [|[k v] d']; [congruence | reflexivity].
Qed.

Lemma choices_must_be_a_list_witness :
  resume (chat Sample.provider Sample.chat_request)
    (JDict [("choices", JStr "stop"); ("model", JStr "gpt-x")]) =
  Raise TypeError.
Proof.
  destruct (choices_must_be_a_list Sample.provider Sample.chat_request
              [("choices", JStr "stop"); ("model", JStr "gpt-x")]
              (JStr "stop") eq_refl) as [Hchat _]; try discriminate.
  apply (Hchat _ eq_refl).
Defined.
End MoreBodies.

Section MorePayloads.
Import DictFacts.
Import OpenAIProvider.

(** Assignments into a dictionary leave its first key first. *)
Lemma update_head (d2 : Dict.t json) : forall k0 v0 d1,
  hd_error (Dict.keys (Dict.update ((k0, v0) :: d1) d2)) = Some k0.
Proof.
  unfold Dict.update.
  induction d2 as [|[k v] d2 IH]; simpl; intros k0 v0 d1; auto.
  destruct (String.eqb k k0); apply IH.
Qed.

(** What the encoder keeps of a request, key by key. *)
Lemma jsonable_encoder_fold_get k payload : forall acc,
  Dict.wf payload ->
  Dict.get k
    (fold_left
       (fun acc kv =>
          let '(k, v) := kv in
          if excluded k v then acc
          else Dict.set k (jsonable_encoder_value v) acc)
       payload acc) =
  match Dict.get k payload with
  | Some v =>
      if excluded k v then Dict.get k acc
      else Some (jsonable_encoder_value v)
  | None => Dict.get k acc
  end.
Proof.
  induction payload as [|[k' v] payload IH]; simpl; intros acc Hwf; auto.
  inversion Hwf as [|? ? Hnotin Hwf']; subst.
  rewrite IH by assumption.
  destruct (String.eqb k k') eqn:E.
  - apply String.eqb_eq in E. subst k'.
    apply get_None in Hnotin. rewrite Hnotin.
    destruct (excluded k v); [reflexivity | apply get_set_same].
  - apply String.eqb_neq in E.
    destruct (Dict.get k payload) as [w|].
    + destruct (excluded k w); [|reflexivity].
      destruct (excluded k' v); [reflexivity | now apply get_set_other].
    + destruct (excluded k' v); [reflexivity | now apply get_set_other].
Qed.

Lemma jsonable_encoder_get k payload :
  Dict.wf payload ->
  Dict.get k (jsonable_encoder payload) =
  match Dict.get k payload with
  | Some v => if excluded k v then None else Some (jsonable_encoder_value v)
  | None => None
  end.
Proof.
  intros Hwf. unfold jsonable_encoder.
  now rewrite jsonable_encoder_fold_get.
Qed.

(** X10: on every request an operation sends, the wire payload starts with
    the key [model], and the value under it is the one the request carried
    under [model] if it carried one, and the configured model name
    otherwise. *)
Theorem wire_model_is_first_and_overridable self payload r :
  awaited (chat self payload) = Some r \/
  awaited (completions self payload) = Some r \/
  awaited (embeddings self payload) = Some r ->
  hd_error (Dict.keys (req_payload r)) = Some "model" /\
  Dict.get "model" (req_payload r) =
  Some (match Dict.get "model" (jsonable_encoder payload) with
        | Some v => v
        | None => JStr (Model.name (RouteConfig.model (config self)))
        end).
Proof.
  assert (Hwf := jsonable_encoder_wf payload).
  intros [Hr|[Hr|Hr]].
  - destruct (chat_awaited_inv _ _ Hr) as (t & t2 & _ & _ & _ & ->).
    simpl. split; [apply update_head|].
    rewrite with_model_get by apply sampling_payload_wf.
    rewrite get_set_other by discriminate.
    rewrite rename_other by (assumption || discriminate).
    now destruct (Dict.get "model" (jsonable_encoder payload)).
  - destruct (completions_awaited_inv _ _ Hr)
      as (t & t2 & prompt & _ & _ & _ & _ & ->).
    simpl. split; [apply update_head|].
    rewrite with_model_get
      by apply wf_set, wf_remove, sampling_payload_wf.
    rewrite get_set_other by discriminate.
    rewrite get_remove_other by discriminate.
    rewrite get_set_other by discriminate.
    rewrite rename_other by (assumption || discriminate).
    now destruct (Dict.get "model" (jsonable_encoder payload)).
  - rewrite embeddings_sends in Hr. injection Hr as <-.
    simpl. split; [apply update_head|].
    rewrite with_model_get by apply renamed_request_wf.
    rewrite rename_other by (assumption || discriminate).
    now destruct (Dict.get "model" (jsonable_encoder payload)).
Qed.

Lemma wire_model_is_first_and_overridable_witness :
  exists r,
    awaited (chat Sample.provider Sample.chat_request_with_model) = Some r /\
    hd_error (Dict.keys (req_payload r)) = Some "model" /\
    Dict.get "model" (req_payload r) = Some (JStr "gpt-4-32k").
Proof.
  eexists. split; [reflexivity|].
  apply (wire_model_is_first_and_overridable Sample.provider
           Sample.chat_request_with_model _ (or_introl eq_refl)).
Defined.

(** X11: for a completions request that passes its checks, the wire
    payload carries the value of [candidate_count] under [n] and no key
    [candidate_count]; it carries under [messages] the message made from
    the prompt even when the request brought [messages] of its own; and
    every key of the request other than [candidate_count], [temperature],
    [prompt] and [messages] is carried with its own value. *)
Theorem completions_wire_payload self payload t t2 prompt :
  Dict.contains "n" (jsonable_encoder payload) = false ->
  Dict.get "temperature" (jsonable_encoder payload) = Some t ->
  double t = Ret t2 ->
  Dict.get "prompt" (jsonable_encoder payload) = Some prompt ->
  exists r,
    awaited (completions self payload) = Some r /\
    Dict.get "n" (req_payload r) =
      Dict.get "candidate_count" (jsonable_encoder payload) /\
    Dict.get "candidate_count" (req_payload r) = None /\
    Dict.get "messages" (req_payload r) =
      Some (JList [JDict [("role", JStr "user"); ("content", prompt)]]) /\
    (forall key v,
       key <> "candidate_count" -> key <> "temperature" ->
       key <> "prompt" -> key <> "messages" ->
       Dict.get key (jsonable_encoder payload) = Some v ->
       Dict.get key (req_payload r) = Some v).
Proof.
  intros Hn Ht Hd Hp.
  assert (Hwf := jsonable_encoder_wf payload).
  rewrite (completions_sends self payload Hn Ht Hd Hp).
  eexists. split; [reflexivity|]. simpl.
  assert (Hwf' : Dict.wf
                   (Dict.set "messages" (user_messages prompt)
                      (Dict.remove "prompt"
                         (Dict.set "temperature" t2
                            (rename_payload_keys (jsonable_encoder payload)
                               [("candidate_count", "n")])))))
    by apply wf_set, wf_remove, sampling_payload_wf.
  apply contains_false in Hn.
  split; [|split; [|split]].
  - rewrite with_model_get by exact Hwf'.
    rewrite get_set_other by discriminate.
    rewrite get_remove_other by discriminate.
    rewrite get_set_other by discriminate.
    rewrite rename_target by (assumption || discriminate).
    now destruct (Dict.get "candidate_count" (jsonable_encoder payload)).
  - rewrite with_model_get by exact Hwf'.
    rewrite get_set_other by discriminate.
    rewrite get_remove_other by discriminate.
    rewrite get_set_other by discriminate.
    now rewrite rename_source by discriminate.
  - rewrite with_model_get by exact Hwf'.
    now rewrite get_set_same.
  - intros key v Hcc Htemp Hprompt Hmsg Hkey.
    assert (key <> "n") by (intros ->; congruence).
    rewrite with_model_get by exact Hwf'.
    rewrite get_set_other by assumption.
    rewrite get_remove_other by assumption.
    rewrite get_set_other by assumption.
    rewrite rename_other by assumption.
    now rewrite Hkey.
Qed.

Lemma completions_wire_payload_witness :
  Dict.get "messages"
    (jsonable_encoder Cases.completions_request_with_messages)
    = Some (JList []) /\
  exists r,
    awaited (completions Sample.provider
               Cases.completions_request_with_messages) = Some r /\
    Dict.get "n" (req_payload r) = Some (JInt 2) /\
    Dict.get "messages" (req_payload r) =
      Some (JList [JDict [("role", JStr "user");
                          ("content", JStr "Say hi")]]) /\
    Dict.get "max_tokens" (req_payload r) = Some (JInt 16).
Proof.
  split; [reflexivity|].
  destruct (completions_wire_payload Sample.provider
              Cases.completions_request_with_messages
              (JFloat 0.5) (JFloat 1) (JStr "Say hi")
              eq_refl eq_refl eq_refl eq_refl)
    as (r & Hr & Hn & _ & Hmsg & Hother).
  exists r.
  split; [exact Hr|]. split; [exact Hn|]. split; [exact Hmsg|].
  apply Hother; try discriminate. reflexivity.
Defined.

(** X12: a field set to [None] counts as absent.  A chat request whose [n]
    is [None] is not rejected: with a temperature [t] it is sent with the
    doubled temperature, and no field of the request that was [None]
    (other than under the keys [n] and [model], which the translation
    fills itself) is on the wire.  A chat request whose temperature is
    [None] and that has no [n] fails like one without temperature. *)
Theorem none_fields_count_as_absent self payload :
  Dict.wf payload ->
  (forall t,
     Dict.get "n" payload = Some JNull ->
     Dict.get "temperature" payload = Some (JFloat t) ->
     exists r,
       awaited (chat self payload) = Some r /\
       Dict.get "temperature" (req_payload r) = Some (JFloat (2 * t)%float) /\
       (forall key,
          key <> "n" -> key <> "model" ->
          Dict.get key payload = Some JNull ->
          Dict.get key (req_payload r) = None)) /\
  (Dict.get "n" payload = None ->
   Dict.get "temperature" payload = Some JNull ->
   chat self payload = Raise (KeyError "temperature")).
Proof.
  intros Hwf.
  assert (Hwf' := jsonable_encoder_wf payload).
  split.
  - intros t Hn Ht.
    assert (Hn' : Dict.contains "n" (jsonable_encoder payload) = false).
    { apply contains_false. rewrite jsonable_encoder_get by assumption.
      now rewrite Hn. }
    assert (Ht' : Dict.get "temperature" (jsonable_encoder payload)
                  = Some (JFloat t)).
    { rewrite jsonable_encoder_get by assumption. now rewrite Ht. }
    rewrite (chat_sends self payload Hn' Ht' eq_refl).
    eexists. split; [reflexivity|]. simpl. split.
    + rewrite with_model_get by apply sampling_payload_wf.
      now rewrite get_set_same.
    + intros key Hkn Hkm Hkey.
      assert (Hkt : key <> "temperature") by (intros ->; congruence).
      assert (Henc : Dict.get key (jsonable_encoder payload) = None).
      { rewrite jsonable_encoder_get by assumption. rewrite Hkey.
        unfold excluded. simpl. now rewrite orb_true_r. }
      rewrite with_model_get by apply sampling_payload_wf.
      rewrite get_set_other by assumption.
      apply String.eqb_neq in Hkm. rewrite Hkm.
      destruct (String.eqb key "candidate_count") eqn:E.
      * apply String.eqb_eq in E. subst key.
        now rewrite rename_source by discriminate.
      * apply String.eqb_neq in E.
        rewrite rename_other by assumption. now rewrite Henc.
  - intros Hn Ht. apply chat_missing_temperature.
    + apply contains_false. rewrite jsonable_encoder_get by assumption.
      now rewrite Hn.
    + rewrite jsonable_encoder_get by assumption. now rewrite Ht.
Qed.

Lemma none_fields_count_as_absent_witness :
  Dict.wf Cases.chat_request_with_null_n /\
  exists r,
    awaited (chat Sample.provider Cases.chat_request_with_null_n) = Some r /\
    Dict.get "temperature" (req_payload r) = Some (JFloat 1) /\
    Dict.get "n" (req_payload r) = None.
Proof.
  assert (Hwf : Dict.wf Cases.chat_request_with_null_n).
  { unfold Dict.wf. simpl. repeat constructor; simpl; intuition discriminate. }
  split; [exact Hwf|].
  destruct (none_fields_count_as_absent Sample.provider
              Cases.chat_request_with_null_n Hwf) as [H _].
  destruct (H 0.5%float eq_refl eq_refl) as (r & Hr & Ht & _).
  exists r. split; [exact Hr|]. split; [exact Ht|].
  revert Hr. intros [= <-]. reflexivity.
Defined.

(** X13: a completions request that passes the check for [n] and has a
    temperature that can be doubled but has no prompt fails with the
    [KeyError] of [prompt], and the sender is not called. *)
Theorem completions_needs_a_prompt self payload t t2 :
  Dict.contains "n" (jsonable_encoder payload) = false ->
  Dict.get "temperature" (jsonable_encoder payload) = Some t ->
  double t = Ret t2 ->
  Dict.get "prompt" (jsonable_encoder payload) = None ->
  completions self payload = Raise (KeyError "prompt") /\
  forall sender calls,
    run sender (completions self payload) calls =
    (inl (KeyError "prompt"), calls).
Proof.
  intros Hn Ht Hd Hp.
  assert (H : completions self payload = Raise (KeyError "prompt")).
  { unfold completions, lookup, pop.
    rewrite Hn, sampling_temperature, Ht. simpl. rewrite Hd. simpl.
    rewrite get_set_other by discriminate.
    rewrite rename_other;
      [| discriminate | discriminate | apply jsonable_encoder_wf].
    now rewrite Hp. }
  rewrite H. split; reflexivity.
Qed.

Lemma completions_needs_a_prompt_witness :
  completions Sample.provider Cases.completions_request_without_prompt =
  Raise (KeyError "prompt").
Proof.
  apply (completions_needs_a_prompt Sample.provider
           Cases.completions_request_without_prompt
           (JFloat 0.5) (JFloat 1)); reflexivity.
Defined.
End MorePayloads.

Section RequestValues.
Import DictFacts.
Import OpenAIProvider.

Lemma jsonable_encoder_value_strings texts :
  jsonable_encoder_value (JList (map JStr texts)) = JList (map JStr texts).
Proof.
  simpl. f_equal. rewrite map_map. reflexivity.
Qed.

Lemma jsonable_encoder_value_messages msgs :
  jsonable_encoder_value (JList (map chat_message msgs)) =
  JList (map chat_message msgs).
Proof.
  simpl. f_equal. rewrite map_map.
  apply map_ext. intros [role content]. reflexivity.
Qed.

(** X14: the messages of a chat request that passes its checks, a sequence
    of role and content pairs, are on the wire under [messages] as they
    were given, all of them and in their order. *)
Theorem chat_messages_reach_the_wire self payload t msgs :
  Dict.wf payload ->
  Dict.get "n" payload = None ->
  Dict.get "temperature" payload = Some (JFloat t) ->
  Dict.get "messages" payload = Some (JList (map chat_message msgs)) ->
  exists r,
    awaited (chat self payload) = Some r /\
    req_path r = "chat/completions" /\
    Dict.get "messages" (req_payload r) =
    Some (JList (map chat_message msgs)).
Proof.
  intros Hwf Hn Ht Hm.
  assert (Hwf' := jsonable_encoder_wf payload).
  assert (Hn' : Dict.contains "n" (jsonable_encoder payload) = false).
  { apply contains_false. rewrite jsonable_encoder_get by assumption.
    now rewrite Hn. }
  assert (Ht' : Dict.get "temperature" (jsonable_encoder payload)
                = Some (JFloat t)).
  { rewrite jsonable_encoder_get by assumption. now rewrite Ht. }
  rewrite (chat_sends self payload Hn' Ht' eq_refl).
  eexists. split; [reflexivity|]. split; [reflexivity|]. simpl.
  rewrite with_model_get by apply sampling_payload_wf.
  rewrite get_set_other by discriminate.
  rewrite rename_other by (assumption || discriminate).
  rewrite jsonable_encoder_get by assumption. rewrite Hm.
  unfold excluded, is_none. cbn [String.prefix orb].
  now rewrite jsonable_encoder_value_messages.
Qed.

Lemma chat_messages_reach_the_wire_witness :
  exists r,
    awaited (chat Sample.provider
               [("messages",
                 JList (map chat_message
                          [("system", "Be brief"); ("user", "Say hi")]));
                ("temperature", JFloat 0.5)]) = Some r /\
    req_path r = "chat/completions" /\
    Dict.get "messages" (req_payload r) =
    Some (JList (map chat_message
                   [("system", "Be brief"); ("user", "Say hi")])).
Proof.
  apply (chat_messages_reach_the_wire Sample.provider _ 0.5%float
           [("system", "Be brief"); ("user", "Say hi")]);
    try reflexivity.
  unfold Dict.wf. simpl. repeat constructor; simpl; intuition discriminate.
Defined.

(** X15: an embeddings request whose [text] is a sequence of strings (and
    that has no [input]) is sent with the same strings, all of them and in
    their order, under [input]. *)
Theorem embeddings_batch_reaches_the_wire self payload texts :
  Dict.wf payload ->
  Dict.get "text" payload = Some (JList (map JStr texts)) ->
  Dict.get "input" payload = None ->
  exists r,
    awaited (embeddings self payload) = Some r /\
    req_path r = "embeddings" /\
    Dict.get "input" (req_payload r) = Some (JList (map JStr texts)).
Proof.
  intros Hwf Ht Hi.
  assert (Hwf' := jsonable_encoder_wf payload).
  rewrite embeddings_sends.
  eexists. split; [reflexivity|]. split; [reflexivity|]. simpl.
  rewrite with_model_get by apply renamed_request_wf.
  rewrite rename_target; [| discriminate | assumption |].
  - rewrite jsonable_encoder_get by assumption. rewrite Ht.
    unfold excluded, is_none. cbn [String.prefix orb].
    now rewrite jsonable_encoder_value_strings.
  - rewrite jsonable_encoder_get by assumption. now rewrite Hi.
Qed.

Lemma embeddings_batch_reaches_the_wire_witness :
  exists r,
    awaited (embeddings Sample.provider
               [("text", JList (map JStr ["first"; "second"]))]) = Some r /\
    req_path r = "embeddings" /\
    Dict.get "input" (req_payload r) =
    Some (JList (map JStr ["first"; "second"])).
Proof.
  apply (embeddings_batch_reaches_the_wire Sample.provider _
           ["first"; "second"]); try reflexivity.
  unfold Dict.wf. simpl. repeat constructor; simpl; intuition discriminate.
Defined.
End RequestValues.
